(** * Rizlax: escrow / wallet ledger and contract / milestone lifecycle

    A shallow embedding of the financial core of the Rizlax backend:

    - [WalletService]   (escrow-wallet-service, services/Wallet.ts)
    - [EscrowService]   (escrow-wallet-service, services/Escrow.ts)
    - [ContractService] (contract-service, services/Contract.ts)
    - [MilestoneService] and the validators (contract-service)

    The Prisma client is modelled as a record of tables ([Store]); every
    service method is a computation in a state-and-exception monad over that
    record.  [prisma.$transaction] is the combinator [transaction], which
    restores the store that was current when the transaction began if its
    callback throws.

    Amounts of the ledger are the INTEGER columns of the schema, in minor
    currency units: numbers in [Z], with the 32-bit range of the column
    checked at every increment and decrement.  An amount a request carries
    is an integer that a JavaScript number holds exactly.  Each method is
    run from start to end on the store; where two requests overlap, the
    statements of their transactions are interleaved explicitly
    ([overlapping_payouts]). *)

From stdpp Require Import gmap strings list fin_maps pretty sorting.

Local Open Scope string_scope.
Local Open Scope Z_scope.

(** ** Enumerations of the Prisma schema *)

Module TransactionType.
Inductive t := DEPOSIT | WITHDRAWAL | HOLD | RELEASE | ADJUSTMENT.
#[global] Instance eq_dec : EqDecision t.
Proof. solve_decision. Defined.
End TransactionType.

Module EscrowTransactionType.
Inductive t := DEPOSIT | RELEASE | REFUND.
#[global] Instance eq_dec : EqDecision t.
Proof. solve_decision. Defined.
End EscrowTransactionType.

Module Role.
Inductive t := CLIENT | FREELANCER | ADMIN.
#[global] Instance eq_dec : EqDecision t.
Proof. solve_decision. Defined.
End Role.

Module UserStatus.
Inductive t := ACTIVE | SUSPENDED | BANNED.
#[global] Instance eq_dec : EqDecision t.
Proof. solve_decision. Defined.
End UserStatus.

Module ContractStatus.
Inductive t := PENDING | ACTIVE | REVIEW_PENDING | COMPLETED | DISPUTED | TERMINATED.
#[global] Instance eq_dec : EqDecision t.
Proof. solve_decision. Defined.
End ContractStatus.

Module MilestoneStatus.
Inductive t :=
  PENDING | IN_PROGRESS | SUBMITTED | APPROVED | PAID | DISPUTED | CANCELED
| COMPLETED | REJECTED.
#[global] Instance eq_dec : EqDecision t.
Proof. solve_decision. Defined.

(** The enum value as it is interpolated into an error message. *)
Definition to_string (s : t) : string :=
  match s with
  | PENDING => "PENDING" | IN_PROGRESS => "IN_PROGRESS"
  | SUBMITTED => "SUBMITTED" | APPROVED => "APPROVED" | PAID => "PAID"
  | DISPUTED => "DISPUTED" | CANCELED => "CANCELED"
  | COMPLETED => "COMPLETED" | REJECTED => "REJECTED"
  end.
End MilestoneStatus.

(** ** Rows *)

(** A timestamp ([Date]) is the number of milliseconds since the epoch. *)
Abbreviation Date := Z.

Record User := mkUser {
  user_role : Role.t;
  user_status : UserStatus.t;
}.

(** [Wallet] rows are stored under their unique [userId]. *)
Record Wallet := mkWallet {
  wallet_id : string;
  availableBalance : Z;
  pendingBalance : Z;
}.

Record WalletTransaction := mkWalletTransaction {
  wt_walletId : string;
  wt_amount : Z;
  wt_type : TransactionType.t;
  wt_source : string;              (* metadata.source *)
  wt_relatedId : option string;
}.

(** [EscrowAccount] rows are stored under their primary key [id]. *)
Record EscrowAccount := mkEscrowAccount {
  escrow_contractId : string;
  heldAmount : Z;
  initialAmount : Z;
}.

Record EscrowTransaction := mkEscrowTransaction {
  et_escrowAccountId : string;
  et_amount : Z;
  et_type : EscrowTransactionType.t;
  et_sourceWalletId : option string;
  et_destinationWalletId : option string;
  et_description : string;
}.

Record Contract := mkContract {
  clientId : string;
  freelancerId : string;
  jobId : string;
  contract_amount : Z;
  contract_status : ContractStatus.t;
  startDate : Date;
  endDate : option Date;
  contract_submittedAt : option Date;
}.

Record Milestone := mkMilestone {
  contractId : string;
  sequence : Z;
  title : string;
  description : string;
  milestone_amount : Z;
  dueDate : option Date;
  milestone_status : MilestoneStatus.t;
  approvedAt : option Date;
  submittedAt : option Date;
  disputedAt : option Date;
  deletionRequestedAt : option Date;
}.

(** ** The store *)

(** Of the client, freelancer and job tables only the primary keys matter
    here: a contract references one row of each. *)
Record Store := mkStore {
  users : gmap string User;
  wallets : gmap string Wallet;                 (* by userId *)
  walletTransactions : list WalletTransaction;  (* oldest first *)
  escrowAccounts : gmap string EscrowAccount;   (* by id *)
  escrowTransactions : list EscrowTransaction;  (* oldest first *)
  contracts : gmap string Contract;             (* by id *)
  milestones : gmap string Milestone;           (* by id *)
  clients : gset string;                        (* ids of the Client rows *)
  freelancers : gset string;                    (* ids of the Freelancer rows *)
  jobs : gset string;                           (* ids of the Job rows *)
}.

Definition set_wallets (f : gmap string Wallet → gmap string Wallet) (s : Store) : Store :=
  mkStore (users s) (f (wallets s)) (walletTransactions s) (escrowAccounts s)
          (escrowTransactions s) (contracts s) (milestones s)
          (clients s) (freelancers s) (jobs s).

Definition set_walletTransactions
    (f : list WalletTransaction → list WalletTransaction) (s : Store) : Store :=
  mkStore (users s) (wallets s) (f (walletTransactions s)) (escrowAccounts s)
          (escrowTransactions s) (contracts s) (milestones s)
          (clients s) (freelancers s) (jobs s).

Definition set_escrowAccounts
    (f : gmap string EscrowAccount → gmap string EscrowAccount) (s : Store) : Store :=
  mkStore (users s) (wallets s) (walletTransactions s) (f (escrowAccounts s))
          (escrowTransactions s) (contracts s) (milestones s)
          (clients s) (freelancers s) (jobs s).

Definition set_escrowTransactions
    (f : list EscrowTransaction → list EscrowTransaction) (s : Store) : Store :=
  mkStore (users s) (wallets s) (walletTransactions s) (escrowAccounts s)
          (f (escrowTransactions s)) (contracts s) (milestones s)
          (clients s) (freelancers s) (jobs s).

Definition set_contracts (f : gmap string Contract → gmap string Contract) (s : Store) : Store :=
  mkStore (users s) (wallets s) (walletTransactions s) (escrowAccounts s)
          (escrowTransactions s) (f (contracts s)) (milestones s)
          (clients s) (freelancers s) (jobs s).

Definition set_milestones (f : gmap string Milestone → gmap string Milestone) (s : Store) : Store :=
  mkStore (users s) (wallets s) (walletTransactions s) (escrowAccounts s)
          (escrowTransactions s) (contracts s) (f (milestones s))
          (clients s) (freelancers s) (jobs s).

(** ** Errors and the service monad *)

(** What a service method can throw: a plain [Error] with its message; a
    [DomainError] with message, code and HTTP status; an error of the Prisma
    client, identified by its code; an error of the database that the client
    has no code for and passes on, identified by the database's message; a
    [TypeError] of the JavaScript runtime, whose message depends on the
    engine. *)
Inductive Error :=
| JsError (message : string)
| DomainError (message code : string) (statusCode : Z)
| PrismaError (code : string)
| DatabaseError (message : string)
| TypeError.

Inductive Result (A : Type) :=
| Ok (a : A)
| Err (e : Error).
Arguments Ok {A} a.
Arguments Err {A} e.

Definition is_Err {A} (r : Result A) : Prop := ∃ e, r = Err e.

(** A computation reads and writes the store and may throw.  When it throws,
    the store it returns is the one reached at the throw. *)
Definition M (A : Type) : Type := Store → Result A * Store.

#[global] Instance M_ret : MRet M := λ A a s, (Ok a, s).

#[global] Instance M_bind : MBind M := λ A B f m s,
  match m s with
  | (Ok a, s') => f a s'
  | (Err e, s') => (Err e, s')
  end.

Definition throw {A} (e : Error) : M A := λ s, (Err e, s).
Definition gets {A} (f : Store → A) : M A := λ s, (Ok (f s), s).
Definition modify (f : Store → Store) : M unit := λ s, (Ok tt, f s).

(** [prisma.$transaction(async (tx) => body)]: the writes of [body] are kept
    when it returns and discarded when it throws. *)
Definition transaction {A} (body : M A) : M A := λ s,
  match body s with
  | (Ok a, s') => (Ok a, s')
  | (Err e, _) => (Err e, s)
  end.

(** Record to update not found (update / delete on a missing row). *)
Definition P2025 : Error := PrismaError "P2025".
(** Unique constraint failed (create with a key already present). *)
Definition P2002 : Error := PrismaError "P2002".
(** Foreign key constraint failed (create referencing a missing row). *)
Definition P2003 : Error := PrismaError "P2003".
(** The database refuses a value beyond the range of an INTEGER column
    (SQLSTATE 22003). *)
Definition integer_out_of_range : Error := DatabaseError "integer out of range".

(** ** Numbers *)

(** The range of an INTEGER column (PostgreSQL [int4], Prisma [Int]). *)
Definition INT_MIN : Z := -2147483648.
Definition INT_MAX : Z := 2147483647.
Definition int4 (n : Z) : Prop := INT_MIN ≤ n ≤ INT_MAX.

#[global] Instance int4_dec n : Decision (int4 n).
Proof. unfold int4. apply _. Defined.

(** What an INTEGER column holds after it is set to [n]: the statement
    fails when [n] is out of range. *)
Definition column (n : Z) : option Z :=
  if bool_decide (int4 n) then Some n else None.

(** [Number.MAX_SAFE_INTEGER]: up to it a JavaScript number holds every
    integer exactly. *)
Definition MAX_SAFE_INTEGER : Z := 9007199254740991.

(** [`${n}`] for an integer [n] of magnitude at most [MAX_SAFE_INTEGER]:
    all its decimal digits.  (Beyond, a number need not be the integer that
    was written, and from 1e21 on it prints in exponent notation.) *)
Definition number_to_string (n : Z) : string := pretty n.

(** ** The Prisma client, table by table *)

(** [wallet.findUnique({ where: { userId } })] *)
Definition wallet_findUnique (userId : string) : M (option Wallet) :=
  gets (λ s, wallets s !! userId).

(** [wallet.update({ where: { userId }, data })]: returns the updated row.
    [data] gives the new row, or nothing when a balance would leave the
    range of its column. *)
Definition wallet_update (userId : string) (data : Wallet → option Wallet) : M Wallet := λ s,
  match wallets s !! userId with
  | Some w =>
      match data w with
      | Some w' => (Ok w', set_wallets (insert userId w') s)
      | None => (Err integer_out_of_range, s)
      end
  | None => (Err P2025, s)
  end.

(** [wallet.updateMany({ where: { userId, user: { role, status } }, data })]:
    returns the number of rows updated. *)
Definition wallet_updateMany (userId : string) (role : Role.t) (status : UserStatus.t)
    (data : Wallet → option Wallet) : M Z := λ s,
  match wallets s !! userId, users s !! userId with
  | Some w, Some u =>
      if bool_decide (user_role u = role ∧ user_status u = status)
      then match data w with
           | Some w' => (Ok 1, set_wallets (insert userId w') s)
           | None => (Err integer_out_of_range, s)
           end
      else (Ok 0, s)
  | _, _ => (Ok 0, s)
  end.

(** [wallet.upsert({ where: { userId }, update: {}, create })]: [id] is the
    primary key generated when the row is created.  The row references its
    user, so the creation fails (foreign key, P2003) without one. *)
Definition wallet_upsert (userId id : string) (create : Wallet) : M Wallet := λ s,
  match wallets s !! userId with
  | Some w => (Ok w, s)
  | None =>
      match users s !! userId with
      | Some _ => (Ok create, set_wallets (insert userId create) s)
      | None => (Err P2003, s)
      end
  end.

(** [walletTransaction.create({ data })] *)
Definition walletTransaction_create (row : WalletTransaction) : M unit :=
  modify (set_walletTransactions (λ l, (l ++ [row])%list)).

(** [escrowAccount.findUnique({ where: { id } })] *)
Definition escrowAccount_findUnique (id : string) : M (option EscrowAccount) :=
  gets (λ s, escrowAccounts s !! id).

(** The [escrow] relation of a contract: the account whose unique
    [contractId] column holds the contract's id, with its primary key. *)
Definition escrow_of_contract (contractId : string) (s : Store)
    : option (string * EscrowAccount) :=
  head (filter (λ p, escrow_contractId p.2 = contractId) (map_to_list (escrowAccounts s))).

(** [escrowAccount.update({ where: { id }, data })] *)
Definition escrowAccount_update (id : string) (data : EscrowAccount → option EscrowAccount)
    : M EscrowAccount := λ s,
  match escrowAccounts s !! id with
  | Some a =>
      match data a with
      | Some a' => (Ok a', set_escrowAccounts (insert id a') s)
      | None => (Err integer_out_of_range, s)
      end
  | None => (Err P2025, s)
  end.

(** [escrowTransaction.create({ data })] *)
Definition escrowTransaction_create (row : EscrowTransaction) : M unit :=
  modify (set_escrowTransactions (λ l, (l ++ [row])%list)).

(** [{ availableBalance: { decrement: amount } }] and its siblings: the
    database computes the new value of the column from the one the row
    holds. *)
Definition decrement_available (amount : Z) (w : Wallet) : option Wallet :=
  b ← column (availableBalance w - amount);
  Some (mkWallet (wallet_id w) b (pendingBalance w)).
Definition increment_available (amount : Z) (w : Wallet) : option Wallet :=
  b ← column (availableBalance w + amount);
  Some (mkWallet (wallet_id w) b (pendingBalance w)).
Definition increment_pending (amount : Z) (w : Wallet) : option Wallet :=
  b ← column (pendingBalance w + amount);
  Some (mkWallet (wallet_id w) (availableBalance w) b).
(** [{ pendingBalance: { decrement: amount }, availableBalance: { increment:
    amount } }] *)
Definition pending_to_available (amount : Z) (w : Wallet) : option Wallet :=
  p ← column (pendingBalance w - amount);
  b ← column (availableBalance w + amount);
  Some (mkWallet (wallet_id w) b p).
Definition increment_held (amount : Z) (a : EscrowAccount) : option EscrowAccount :=
  h ← column (heldAmount a + amount);
  Some (mkEscrowAccount (escrow_contractId a) h (initialAmount a)).
Definition decrement_held (amount : Z) (a : EscrowAccount) : option EscrowAccount :=
  h ← column (heldAmount a - amount);
  Some (mkEscrowAccount (escrow_contractId a) h (initialAmount a)).

(** ** WalletService *)

Module WalletService.

(** [try { ... } catch (error) { throw new Error(...) }] *)
Definition try_catch {A} (body : M A) (handler : Error → Error) : M A := λ s,
  match body s with
  | (Ok a, s') => (Ok a, s')
  | (Err e, s') => (Err (handler e), s')
  end.

(** [id] is the primary key generated if the wallet is created. *)
Definition initializeUserWallet (userId : string) (role : Role.t) (id : string) : M Wallet :=
  try_catch (wallet_upsert userId id (mkWallet id 0 0))
    (λ _, JsError "Failed to ensure user wallet existence.").

(** [updatePendingBalance(tx, userId, amount)]: runs on the transaction
    client of its caller. *)
Definition updatePendingBalance (userId : string) (amount : Z) : M unit :=
  if bool_decide (amount ≤ 0) then mret tt else
  count ← wallet_updateMany userId Role.FREELANCER UserStatus.ACTIVE
             (increment_pending amount);
  if bool_decide (count = 0) then
    throw (JsError ("Freelancer " +:+ userId +:+
                    " wallet not found or is inactive. Aborting Escrow transaction."))
  else
    wallet ← wallet_findUnique userId;
    match wallet with
    | Some w =>
        walletTransaction_create
          (mkWalletTransaction (wallet_id w) amount TransactionType.RELEASE
             "Milestone Completion (Pending)" None)
    | None => mret tt
    end.

Definition movePendingToAvailable (userId : string) (amount : Z) : M unit :=
  if bool_decide (amount ≤ 0) then mret tt else
  transaction (
    walletCheck ← wallet_findUnique userId;
    match walletCheck with
    | None => throw (JsError "Insufficient pending balance to move to available.")
    | Some wc =>
        if bool_decide (pendingBalance wc < amount) then
          throw (JsError "Insufficient pending balance to move to available.")
        else
          updatedWallet ← wallet_update userId (pending_to_available amount);
          walletTransaction_create
            (mkWalletTransaction (wallet_id updatedWallet) amount
               TransactionType.ADJUSTMENT "Pending to Available Move" None)
    end).

Definition processPayoutDeduction (userId : string) (amount : Z) (withdrawalId : string)
    : M unit :=
  if bool_decide (amount ≤ 0) then mret tt else
  transaction (
    walletCheck ← wallet_findUnique userId;
    match walletCheck with
    | None => throw (JsError "Insufficient available balance for payout deduction.")
    | Some wc =>
        if bool_decide (availableBalance wc < amount) then
          throw (JsError "Insufficient available balance for payout deduction.")
        else
          updatedWallet ← wallet_update userId (decrement_available amount);
          walletTransaction_create
            (mkWalletTransaction (wallet_id updatedWallet) amount
               TransactionType.WITHDRAWAL "Payout Deduction" (Some withdrawalId))
    end).

(** The callback of [processPayoutDeduction], statement by statement: the
    read with its test (lines 139-147), and the two writes (lines 149-164).
    The read is a plain [findUnique], the update an unconditional
    [decrement]. *)
Definition payout_check (userId : string) (amount : Z) : M unit :=
  walletCheck ← wallet_findUnique userId;
  match walletCheck with
  | None => throw (JsError "Insufficient available balance for payout deduction.")
  | Some wc =>
      if bool_decide (availableBalance wc < amount) then
        throw (JsError "Insufficient available balance for payout deduction.")
      else mret tt
  end.

Definition payout_write (userId : string) (amount : Z) (withdrawalId : string) : M unit :=
  updatedWallet ← wallet_update userId (decrement_available amount);
  walletTransaction_create
    (mkWalletTransaction (wallet_id updatedWallet) amount
       TransactionType.WITHDRAWAL "Payout Deduction" (Some withdrawalId)).

End WalletService.

(** ** EscrowService *)

Module EscrowService.

(** How [${currentEscrow?.heldAmount}] prints. *)
Definition held_to_string (currentEscrow : option EscrowAccount) : string :=
  match currentEscrow with
  | Some a => number_to_string (heldAmount a)
  | None => "undefined"
  end.

Definition bool_to_string (b : bool) : string := if b then "true" else "false".

(** [_getContractWithEscrow(contractId)]: the contract together with its
    escrow account (primary key and row). *)
Definition _getContractWithEscrow (contractId : string)
    : M (Contract * (string * EscrowAccount)) :=
  contract ← gets (λ s, contracts s !! contractId);
  match contract with
  | None => throw (JsError "Contract not found.")
  | Some c =>
      escrow ← gets (escrow_of_contract contractId);
      match escrow with
      | None => throw (JsError "Escrow account is not initialized for this contract.")
      | Some e => mret (c, e)
      end
  end.

Definition depositFunds (userId contractId : string) (amount : Z) : M unit :=
  if bool_decide (amount ≤ 0) then throw (JsError "Deposit amount must be positive.") else
  contractWithEscrow ← _getContractWithEscrow contractId;
  let escrowAccount_id := contractWithEscrow.2.1 in
  if bool_decide (clientId contractWithEscrow.1 ≠ userId) then
    throw (JsError "Unauthorized: Only the contract client can deposit funds.")
  else
  transaction (
    clientWallet ← wallet_findUnique userId;
    match clientWallet with
    | None => throw (JsError "Insufficient available balance in client wallet.")
    | Some cw =>
        if bool_decide (availableBalance cw < amount) then
          throw (JsError "Insufficient available balance in client wallet.")
        else
          wallet_update userId (decrement_available amount);;
          escrowAccount_update escrowAccount_id (increment_held amount);;
          escrowTransaction_create
            (mkEscrowTransaction escrowAccount_id amount EscrowTransactionType.DEPOSIT
               (Some (wallet_id cw)) None ("Deposit for contract " +:+ contractId));;
          walletTransaction_create
            (mkWalletTransaction (wallet_id cw) amount TransactionType.HOLD
               ("Escrow Deposit for Contract " +:+ contractId) (Some contractId))
    end).

Definition releaseFunds (userId contractId : string) (amount : Z) : M unit :=
  if bool_decide (amount ≤ 0) then throw (JsError "Release amount must be positive.") else
  contractWithEscrow ← _getContractWithEscrow contractId;
  if bool_decide (clientId contractWithEscrow.1 ≠ userId) then
    throw (JsError "Unauthorized: Only the contract client can release funds.")
  else
  transaction (
    let escrowAccount_id := contractWithEscrow.2.1 in
    currentEscrow ← escrowAccount_findUnique escrowAccount_id;
    if match currentEscrow with
       | None => true
       | Some ce => bool_decide (heldAmount ce < amount)
       end then
      throw (JsError ("Insufficient funds (" +:+ held_to_string currentEscrow +:+
                      ") held in escrow for release of " +:+ number_to_string amount +:+
                      "."))
    else
      escrowAccount_update escrowAccount_id (decrement_held amount);;
      WalletService.updatePendingBalance (freelancerId contractWithEscrow.1) amount;;
      freelancerWallet ← wallet_findUnique (freelancerId contractWithEscrow.1);
      match freelancerWallet with
      | Some fw =>
          escrowTransaction_create
            (mkEscrowTransaction escrowAccount_id amount EscrowTransactionType.RELEASE
               None (Some (wallet_id fw))
               ("Funds released for Contract " +:+ contractId +:+ " milestone"))
      | None => mret tt
      end).

Definition refundFunds (contractId : string) (amount : Z) (isSystemRefund : bool) : M unit :=
  if bool_decide (amount ≤ 0) then throw (JsError "Refund amount must be positive.") else
  contractWithEscrow ← _getContractWithEscrow contractId;
  transaction (
    let escrowAccount_id := contractWithEscrow.2.1 in
    currentEscrow ← escrowAccount_findUnique escrowAccount_id;
    if match currentEscrow with
       | None => true
       | Some ce => bool_decide (heldAmount ce < amount)
       end then
      throw (JsError ("Insufficient funds (" +:+ held_to_string currentEscrow +:+
                      ") held in escrow for refund of " +:+ number_to_string amount +:+
                      "."))
    else
      escrowAccount_update escrowAccount_id (decrement_held amount);;
      clientWallet ← wallet_update (clientId contractWithEscrow.1)
                       (increment_available amount);
      escrowTransaction_create
        (mkEscrowTransaction escrowAccount_id amount EscrowTransactionType.REFUND
           None (Some (wallet_id clientWallet))
           ("Refund for contract " +:+ contractId +:+ " (System: " +:+
            bool_to_string isSystemRefund +:+ ")"));;
      walletTransaction_create
        (mkWalletTransaction (wallet_id clientWallet) amount TransactionType.ADJUSTMENT
           ("Escrow Refund from Contract " +:+ contractId) (Some contractId))).

End EscrowService.

(** ** Contract and milestone tables *)

(** [contract.update({ where: { id }, data })] *)
Definition contract_update (id : string) (data : Contract → Contract) : M Contract := λ s,
  match contracts s !! id with
  | Some c => (Ok (data c), set_contracts (insert id (data c)) s)
  | None => (Err P2025, s)
  end.

(** [contract.create({ data })]: [id] is the primary key generated for the
    row.  The table has a unique index on [jobId], and the row references a
    client, a freelancer and a job. *)
Definition contract_create (id : string) (row : Contract) : M Contract := λ s,
  if bool_decide (is_Some (contracts s !! id)
                  ∨ map_Exists (λ _ c, jobId c = jobId row) (contracts s)) then
    (Err P2002, s)
  else if bool_decide (clientId row ∈ clients s ∧ freelancerId row ∈ freelancers s
                       ∧ jobId row ∈ jobs s) then
    (Ok row, set_contracts (insert id row) s)
  else (Err P2003, s).

(** [milestone.findUnique({ where: { id } })] *)
Definition milestone_findUnique (id : string) : M (option Milestone) :=
  gets (λ s, milestones s !! id).

(** [milestone.update({ where: { id }, data })] *)
Definition milestone_update (id : string) (data : Milestone → Milestone) : M Milestone := λ s,
  match milestones s !! id with
  | Some m => (Ok (data m), set_milestones (insert id (data m)) s)
  | None => (Err P2025, s)
  end.

(** [milestone.delete({ where: { id } })]: returns the deleted row. *)
Definition milestone_delete (id : string) : M Milestone := λ s,
  match milestones s !! id with
  | Some m => (Ok m, set_milestones (delete id) s)
  | None => (Err P2025, s)
  end.

(** The rows of a contract, [where: { contractId }]. *)
Definition milestones_of (cid : string) (s : Store) : gmap string Milestone :=
  filter (λ kv, contractId kv.2 = cid) (milestones s).

(** [milestone.count({ where: { contractId } })] *)
Definition milestone_count (cid : string) : M Z :=
  gets (λ s, Z.of_nat (size (milestones_of cid s))).

(** [milestone.create({ data })]: [id] is the primary key the database
    generates for the new row; status and timestamps take the column
    defaults. *)
Definition milestone_create (id : string) (cid ttl descr : string) (amount : Z)
    (due : Date) (seq : Z) : M Milestone := λ s,
  match milestones s !! id with
  | Some _ => (Err P2002, s)
  | None =>
      let row := mkMilestone cid seq ttl descr amount (Some due) MilestoneStatus.PENDING
                   None None None None in
      (Ok row, set_milestones (insert id row) s)
  end.

(** [orderBy: { sequence: "asc" }] *)
Definition by_sequence (a b : string * Milestone) : Prop := sequence a.2 ≤ sequence b.2.

#[global] Instance by_sequence_dec a b : Decision (by_sequence a b).
Proof. unfold by_sequence. apply _. Defined.

(** [milestone.findMany({ where: { contractId }, orderBy: { sequence: "asc" } })] *)
Definition milestone_findMany (cid : string) : M (list (string * Milestone)) :=
  gets (λ s, merge_sort by_sequence (map_to_list (milestones_of cid s))).

(** The [data] objects of the updates. *)
Definition data_contract (st : ContractStatus.t) (start : option Date)
    (submitted : option Date) (finish : option Date) (c : Contract) : Contract :=
  mkContract (clientId c) (freelancerId c) (jobId c) (contract_amount c) st
    (default (startDate c) start)
    (match finish with Some d => Some d | None => endDate c end)
    (match submitted with Some d => Some d | None => contract_submittedAt c end).

Definition data_status (st : MilestoneStatus.t) (m : Milestone) : Milestone :=
  mkMilestone (contractId m) (sequence m) (title m) (description m) (milestone_amount m)
    (dueDate m) st (approvedAt m) (submittedAt m) (disputedAt m) (deletionRequestedAt m).

Definition data_approvedAt (d : Date) (m : Milestone) : Milestone :=
  mkMilestone (contractId m) (sequence m) (title m) (description m) (milestone_amount m)
    (dueDate m) (milestone_status m) (Some d) (submittedAt m) (disputedAt m)
    (deletionRequestedAt m).

Definition data_submittedAt (d : Date) (m : Milestone) : Milestone :=
  mkMilestone (contractId m) (sequence m) (title m) (description m) (milestone_amount m)
    (dueDate m) (milestone_status m) (approvedAt m) (Some d) (disputedAt m)
    (deletionRequestedAt m).

Definition data_disputedAt (d : Date) (m : Milestone) : Milestone :=
  mkMilestone (contractId m) (sequence m) (title m) (description m) (milestone_amount m)
    (dueDate m) (milestone_status m) (approvedAt m) (submittedAt m) (Some d)
    (deletionRequestedAt m).

Definition data_deletionRequestedAt (d : Date) (m : Milestone) : Milestone :=
  mkMilestone (contractId m) (sequence m) (title m) (description m) (milestone_amount m)
    (dueDate m) (milestone_status m) (approvedAt m) (submittedAt m) (disputedAt m)
    (Some d).

(** ** ContractService *)

Record CreateContractDTO := mkCreateContractDTO {
  dto_clientId : string;
  dto_freelancerId : string;
  dto_jobId : string;
  dto_contract_amount : Z;
  dto_status : option ContractStatus.t;
  dto_startDate : Date;
  dto_endDate : option Date;
}.

Module ContractService.

Import ContractStatus.

Definition VALID_TRANSITIONS (from : ContractStatus.t) : list ContractStatus.t :=
  match from with
  | PENDING => [ACTIVE; TERMINATED]
  | ACTIVE => [REVIEW_PENDING; TERMINATED]
  | REVIEW_PENDING => [COMPLETED; DISPUTED; TERMINATED]
  | COMPLETED => []
  | DISPUTED => [TERMINATED]
  | TERMINATED => []
  end.

Definition getContractById (contractId : string) : M (option Contract) :=
  gets (λ s, contracts s !! contractId).

(** [id] is the primary key generated for the new row; a missing [status]
    takes the column default. *)
Definition createContract (data : CreateContractDTO) (id : string) : M Contract :=
  contract_create id
    (mkContract (dto_clientId data) (dto_freelancerId data) (dto_jobId data)
       (dto_contract_amount data) (default PENDING (dto_status data))
       (dto_startDate data) (dto_endDate data) None).

Definition validateContractExists (contractId : string) : M Contract :=
  contract ← getContractById contractId;
  match contract with
  | None => throw (DomainError "Contract not found" "CONTRACT_NOT_FOUND" 404)
  | Some c => mret c
  end.

Definition validateStatusTransition (from to : ContractStatus.t) : M unit :=
  let allowed := VALID_TRANSITIONS from in
  if bool_decide (to ∉ allowed) then
    throw (DomainError "invalid contract status transition"
             "INVALID_CONTRACT_STATUS_TRANSITION" 400)
  else mret tt.

(** Every method reads the clock once ([new Date()]); [now] is that reading. *)
Definition startContract (contractId : string) (now : Date) : M Contract :=
  contract ← validateContractExists contractId;
  validateStatusTransition (contract_status contract) ACTIVE;;
  contract_update contractId (data_contract ACTIVE (Some now) None None).

Definition submitWork (contractId : string) (now : Date) : M Contract :=
  contract ← validateContractExists contractId;
  validateStatusTransition (contract_status contract) REVIEW_PENDING;;
  contract_update contractId (data_contract REVIEW_PENDING None (Some now) None).

Definition completeContract (contractId : string) (now : Date) : M Contract :=
  contract ← validateContractExists contractId;
  validateStatusTransition (contract_status contract) COMPLETED;;
  contract_update contractId (data_contract COMPLETED None None (Some now)).

Definition disputeContract (contractId : string) : M Contract :=
  contract ← validateContractExists contractId;
  validateStatusTransition (contract_status contract) DISPUTED;;
  contract_update contractId (data_contract DISPUTED None None None).

Definition terminateContract (contractId : string) (now : Date) : M Contract :=
  contract ← validateContractExists contractId;
  validateStatusTransition (contract_status contract) TERMINATED;;
  contract_update contractId (data_contract TERMINATED None None (Some now)).

End ContractService.

(** ** Validators *)

Module ContractValidator.

Definition validateContractExists (contract : option Contract) : M unit :=
  match contract with
  | None => throw (DomainError "Contract was not found" "CONTRACT_NOT_FOUND" 404)
  | Some _ => mret tt
  end.

Definition validateContractStatus (contract : Contract) : M unit :=
  if bool_decide (contract_status contract ≠ ContractStatus.ACTIVE
                  ∧ contract_status contract ≠ ContractStatus.PENDING) then
    throw (DomainError "Contract is not in valid state" "CONTRACT_INACTIVE" 400)
  else mret tt.

Definition validateUserAccess (contract : Contract) (userId : string) : M unit :=
  let isUserPartOfContract :=
    bool_decide (clientId contract = userId) || bool_decide (freelancerId contract = userId) in
  if negb isUserPartOfContract then
    throw (DomainError "User is not authorized for this contract" "USER_NOT_AUTHORIZED" 403)
  else mret tt.

Definition validateClientOnly (contract : Contract) (userId : string) : M unit :=
  if bool_decide (clientId contract ≠ userId) then
    throw (DomainError "Only clients can perform this action" "CLIENT_ONLY_ACTION" 403)
  else mret tt.

Definition validateFreelancerOnly (contract : Contract) (userId : string) : M unit :=
  if bool_decide (freelancerId contract ≠ userId) then
    throw (DomainError "Only freelancers can perform this action"
             "FREELANCER_ONLY_ACTION" 403)
  else mret tt.

(** [ContractValidator[name]]: the static method of the class under that
    name, as it runs when called with a contract and a user id; a name the
    class does not have gives [undefined]. *)
Definition static (name : string) : option (Contract → string → M unit) :=
  if bool_decide (name = "validateContractExists") then
    Some (λ contract _, validateContractExists (Some contract))
  else if bool_decide (name = "validateContractStatus") then
    Some (λ contract _, validateContractStatus contract)
  else if bool_decide (name = "validateUserAccess") then Some validateUserAccess
  else if bool_decide (name = "validateClientOnly") then Some validateClientOnly
  else if bool_decide (name = "validateFreelancerOnly") then Some validateFreelancerOnly
  else None.

End ContractValidator.

Record MilestoneDTO := mkMilestoneDTO {
  dto_contractId : string;
  dto_title : string;
  dto_description : string;
  dto_amount : Z;
  dto_dueDate : Date;
}.

(** [Partial<MilestoneDTO>], as [updateMilestone] reads it. *)
Record PartialMilestoneDTO := mkPartialMilestoneDTO {
  p_title : option string;
  p_description : option string;
  p_amount : option Z;
  p_dueDate : option Date;
}.

Module MilestoneValidator.

Definition validateMilestoneData (data : MilestoneDTO) (now : Date) : M unit :=
  if bool_decide (dto_amount data ≤ 0) then
    throw (DomainError "Milestone amount must be greater than 0" "INVALID_AMOUNT" 400)
  else if bool_decide (dto_dueDate data < now) then
    throw (DomainError "Milestone due date must be in the future" "INVALID_DUE_DATE" 400)
  else mret tt.

Definition validatePartialMilestoneData (data : PartialMilestoneDTO) (now : Date) : M unit :=
  if match p_amount data with Some a => bool_decide (a ≤ 0) | None => false end then
    throw (DomainError "Milestone amount must be greater than 0" "INVALID_AMOUNT" 400)
  else if match p_dueDate data with Some d => bool_decide (d < now) | None => false end then
    throw (DomainError "Milestone due date must be in the future" "INVALID_DUE_DATE" 400)
  else mret tt.

End MilestoneValidator.

(** ** MilestoneService *)

(** The role tag [withMilestoneContext] is called with: ["CLIENT"] or
    ["FREELANCER"]. *)
Inductive ContextRole := CLIENT | FREELANCER.

Definition role_to_string (role : ContextRole) : string :=
  match role with
  | CLIENT => "CLIENT"
  | FREELANCER => "FREELANCER"
  end.

Module MilestoneService.

Import MilestoneStatus.

Definition VALID_STATUS_TRANSITIONS (from : MilestoneStatus.t) : list MilestoneStatus.t :=
  match from with
  | PENDING => [IN_PROGRESS; CANCELED]
  | IN_PROGRESS => [SUBMITTED; CANCELED]
  | SUBMITTED => [APPROVED; REJECTED; DISPUTED]
  | APPROVED => [PAID; DISPUTED]
  | PAID => [COMPLETED]
  | DISPUTED => [APPROVED; REJECTED]
  | CANCELED => []
  | COMPLETED => []
  | REJECTED => [IN_PROGRESS; CANCELED]
  end.

(** The instance state of the service. *)
Record t := mk { bypassAdmin : bool }.

(** [new MilestoneService(contractService, isAdmin)]; [env_bypass] is
    [process.env.BYPASS_ADMIN_VALIDATIONS === "true"]. *)
Definition new (env_bypass : bool) (isAdmin : bool) : t :=
  mk (isAdmin || env_bypass).

Definition getMilestone (milestoneId : string) : M Milestone :=
  milestone ← milestone_findUnique milestoneId;
  match milestone with
  | None => throw (DomainError "Milestone not found" "MILESTONE_NOT_FOUND" 404)
  | Some m => mret m
  end.

Definition getAndValidateContract (contractId userId : string) : M Contract :=
  contract ← ContractService.getContractById contractId;
  ContractValidator.validateContractExists contract;;
  match contract with
  | None => throw TypeError
  | Some c =>
      ContractValidator.validateContractStatus c;;
      ContractValidator.validateUserAccess c userId;;
      mret c
  end.

Definition validateAndGetContext (milestoneId userId : string) : M (Milestone * Contract) :=
  milestone ← getMilestone milestoneId;
  contract ← getAndValidateContract (contractId milestone) userId;
  mret (milestone, contract).

Definition validateStatusTransition (this : t) (from to : MilestoneStatus.t) : M unit :=
  let validateNextStatuses := VALID_STATUS_TRANSITIONS from in
  if bypassAdmin this then mret tt
  else if bool_decide (to ∉ validateNextStatuses) then
    throw (DomainError
             ("Invalid milestone status transition from " +:+ to_string from +:+
              " to " +:+ to_string to)
             "INVALID_MILESTONE_STATUS_TRANSITION" 400)
  else mret tt.

(** [ContractValidator[`validate${role}Only`](contract!, userId)] looks the
    method up under the name built from the role tag; calling [undefined]
    throws a [TypeError]. *)
Definition withMilestoneContext {T} (milestoneId userId : string) (role : ContextRole)
    (callback : Milestone * Contract → M T) : M T :=
  ctx ← validateAndGetContext milestoneId userId;
  match ContractValidator.static ("validate" +:+ role_to_string role +:+ "Only") with
  | Some validate => validate ctx.2 userId
  | None => throw TypeError
  end;;
  callback ctx.

(** [id] is the primary key generated for the new row, [now] the clock
    reading of the validator. *)
Definition createMilestone (data : MilestoneDTO) (userId : string) (id : string)
    (now : Date) : M Milestone :=
  getAndValidateContract (dto_contractId data) userId;;
  contract ← getAndValidateContract (dto_contractId data) userId;
  ContractValidator.validateClientOnly contract userId;;
  MilestoneValidator.validateMilestoneData data now;;
  transaction (
    count ← milestone_count (dto_contractId data);
    milestone_create id (dto_contractId data) (dto_title data) (dto_description data)
      (dto_amount data) (dto_dueDate data) (count + 1)).

Definition getMilestones (contractId userId : string) : M (list (string * Milestone)) :=
  withMilestoneContext contractId userId CLIENT (λ _,
    milestone_findMany contractId).

Definition getMilestoneById (milestoneId : string) : M (option Milestone) :=
  milestone_findUnique milestoneId.

(** [data] of [updateMilestone]: an [undefined] field leaves the column as it is. *)
Definition data_partial (data : PartialMilestoneDTO) (m : Milestone) : Milestone :=
  mkMilestone (contractId m) (sequence m)
    (default (title m) (p_title data))
    (default (description m) (p_description data))
    (default (milestone_amount m) (p_amount data))
    (match p_dueDate data with Some d => Some d | None => dueDate m end)
    (milestone_status m) (approvedAt m) (submittedAt m) (disputedAt m)
    (deletionRequestedAt m).

Definition updateMilestone (milestoneId userId : string) (data : PartialMilestoneDTO)
    (now : Date) : M Milestone :=
  withMilestoneContext milestoneId userId CLIENT (λ ctx,
    MilestoneValidator.validatePartialMilestoneData data now;;
    if bool_decide (milestone_status ctx.1 ≠ PENDING) then
      throw (DomainError "Only milestones with PENDING status can be updated"
               "INVALID_MILESTONE_UPDATE" 400)
    else milestone_update milestoneId (data_partial data)).

Definition markMilestoneAsApprovedByFreelancer (this : t) (milestoneId userId : string)
    (now : Date) : M Milestone :=
  withMilestoneContext milestoneId userId FREELANCER (λ ctx,
    validateStatusTransition this (milestone_status ctx.1) APPROVED;;
    milestone_update milestoneId (data_approvedAt now ∘ data_status APPROVED)).

Definition rejectMilestone (this : t) (milestoneId userId : string) : M Milestone :=
  withMilestoneContext milestoneId userId FREELANCER (λ ctx,
    validateStatusTransition this (milestone_status ctx.1) REJECTED;;
    milestone_update milestoneId (data_status REJECTED)).

Definition submitMilestone (this : t) (milestoneId userId : string) (now : Date)
    : M Milestone :=
  withMilestoneContext milestoneId userId FREELANCER (λ ctx,
    validateStatusTransition this (milestone_status ctx.1) SUBMITTED;;
    milestone_update milestoneId (data_submittedAt now ∘ data_status SUBMITTED)).

Definition disputeMilestone (this : t) (milestoneId userId : string) (now : Date)
    : M Milestone :=
  withMilestoneContext milestoneId userId CLIENT (λ ctx,
    validateStatusTransition this (milestone_status ctx.1) DISPUTED;;
    milestone_update milestoneId (data_disputedAt now ∘ data_status DISPUTED)).

Definition approveWorkByClient (this : t) (milestoneId userId : string) (now : Date)
    : M Milestone :=
  withMilestoneContext milestoneId userId CLIENT (λ ctx,
    validateStatusTransition this (milestone_status ctx.1) COMPLETED;;
    milestone_update milestoneId (data_approvedAt now ∘ data_status COMPLETED)).

Definition requestDeletion (milestoneId userId : string) (now : Date) : M Milestone :=
  withMilestoneContext milestoneId userId CLIENT (λ _,
    milestone_update milestoneId (data_deletionRequestedAt now)).

Definition acceptRequestDeletion (milestoneId userId : string) : M Milestone :=
  withMilestoneContext milestoneId userId FREELANCER (λ ctx,
    match deletionRequestedAt ctx.1 with
    | None => throw (DomainError "No deletion request found" "NO_DELETION_REQUEST" 400)
    | Some _ => milestone_delete milestoneId
    end).

End MilestoneService.

(** ** Calls, as a request handler issues them *)

(** The public operations of the escrow-wallet service. *)
Inductive FinanceCall :=
| DepositFunds (userId contractId : string) (amount : Z)
| ReleaseFunds (userId contractId : string) (amount : Z)
| RefundFunds (contractId : string) (amount : Z) (isSystemRefund : bool)
| MovePendingToAvailable (userId : string) (amount : Z)
| ProcessPayoutDeduction (userId : string) (amount : Z) (withdrawalId : string).

Definition run_finance (call : FinanceCall) : M unit :=
  match call with
  | DepositFunds u c a => EscrowService.depositFunds u c a
  | ReleaseFunds u c a => EscrowService.releaseFunds u c a
  | RefundFunds c a b => EscrowService.refundFunds c a b
  | MovePendingToAvailable u a => WalletService.movePendingToAvailable u a
  | ProcessPayoutDeduction u a w => WalletService.processPayoutDeduction u a w
  end.

(** A sequence of requests, served one after the other; a rejected request
    does not stop the ones after it. *)
Definition serve {C A} (run : C → M A) (calls : list C) (s : Store) : Store :=
  foldl (λ s call, (run call s).2) s calls.

(** The status-changing methods of [ContractService]. *)
Inductive ContractCall :=
| StartContract | SubmitWork | CompleteContract | DisputeContract | TerminateContract.

(** The status a method moves the contract to. *)
Definition contract_target (call : ContractCall) : ContractStatus.t :=
  match call with
  | StartContract => ContractStatus.ACTIVE
  | SubmitWork => ContractStatus.REVIEW_PENDING
  | CompleteContract => ContractStatus.COMPLETED
  | DisputeContract => ContractStatus.DISPUTED
  | TerminateContract => ContractStatus.TERMINATED
  end.

Definition run_contract (call : ContractCall) (contractId : string) (now : Date)
    : M Contract :=
  match call with
  | StartContract => ContractService.startContract contractId now
  | SubmitWork => ContractService.submitWork contractId now
  | CompleteContract => ContractService.completeContract contractId now
  | DisputeContract => ContractService.disputeContract contractId
  | TerminateContract => ContractService.terminateContract contractId now
  end.

(** The status-changing methods of [MilestoneService]. *)
Inductive MilestoneTransition :=
| MarkMilestoneAsApprovedByFreelancer | RejectMilestone | SubmitMilestone
| DisputeMilestone | ApproveWorkByClient.

Definition milestone_target (tr : MilestoneTransition) : MilestoneStatus.t :=
  match tr with
  | MarkMilestoneAsApprovedByFreelancer => MilestoneStatus.APPROVED
  | RejectMilestone => MilestoneStatus.REJECTED
  | SubmitMilestone => MilestoneStatus.SUBMITTED
  | DisputeMilestone => MilestoneStatus.DISPUTED
  | ApproveWorkByClient => MilestoneStatus.COMPLETED
  end.

(** The role a method passes to [withMilestoneContext]. *)
Definition milestone_role (tr : MilestoneTransition) : ContextRole :=
  match tr with
  | MarkMilestoneAsApprovedByFreelancer | RejectMilestone | SubmitMilestone => FREELANCER
  | DisputeMilestone | ApproveWorkByClient => CLIENT
  end.

Definition run_transition (this : MilestoneService.t) (tr : MilestoneTransition)
    (milestoneId userId : string) (now : Date) : M Milestone :=
  match tr with
  | MarkMilestoneAsApprovedByFreelancer =>
      MilestoneService.markMilestoneAsApprovedByFreelancer this milestoneId userId now
  | RejectMilestone => MilestoneService.rejectMilestone this milestoneId userId
  | SubmitMilestone => MilestoneService.submitMilestone this milestoneId userId now
  | DisputeMilestone => MilestoneService.disputeMilestone this milestoneId userId now
  | ApproveWorkByClient => MilestoneService.approveWorkByClient this milestoneId userId now
  end.

(** The [data] object of the update a status-changing method issues. *)
Definition transition_data (tr : MilestoneTransition) (now : Date) : Milestone → Milestone :=
  match tr with
  | MarkMilestoneAsApprovedByFreelancer =>
      data_approvedAt now ∘ data_status MilestoneStatus.APPROVED
  | RejectMilestone => data_status MilestoneStatus.REJECTED
  | SubmitMilestone => data_submittedAt now ∘ data_status MilestoneStatus.SUBMITTED
  | DisputeMilestone => data_disputedAt now ∘ data_status MilestoneStatus.DISPUTED
  | ApproveWorkByClient => data_approvedAt now ∘ data_status MilestoneStatus.COMPLETED
  end.

(** The party of a contract that holds a role. *)
Definition party (role : ContextRole) (c : Contract) : string :=
  match role with
  | CLIENT => clientId c
  | FREELANCER => freelancerId c
  end.

(** [validateContractStatus] lets these two statuses through. *)
Definition actionable (c : Contract) : Prop :=
  contract_status c = ContractStatus.ACTIVE ∨ contract_status c = ContractStatus.PENDING.

(** Every method of the three services that issues a write;
    [updatePendingBalance] writes on the transaction of [releaseFunds]
    only. *)
Inductive Call :=
| Finance (call : FinanceCall)
| InitializeUserWallet (userId : string) (role : Role.t) (id : string)
| CreateContract (data : CreateContractDTO) (id : string)
| ContractOp (call : ContractCall) (contractId : string) (now : Date)
| CreateMilestone (data : MilestoneDTO) (userId id : string) (now : Date)
| UpdateMilestone (milestoneId userId : string) (data : PartialMilestoneDTO) (now : Date)
| Transition (tr : MilestoneTransition) (milestoneId userId : string) (now : Date)
| RequestDeletion (milestoneId userId : string) (now : Date)
| AcceptRequestDeletion (milestoneId userId : string).

(** A call without its return value. *)
Definition void {A} (m : M A) : M unit := m ;; mret tt.

Definition run (this : MilestoneService.t) (call : Call) : M unit :=
  match call with
  | Finance c => run_finance c
  | InitializeUserWallet u r id => void (WalletService.initializeUserWallet u r id)
  | CreateContract d id => void (ContractService.createContract d id)
  | ContractOp c id now => void (run_contract c id now)
  | CreateMilestone d u id now => void (MilestoneService.createMilestone d u id now)
  | UpdateMilestone m u d now => void (MilestoneService.updateMilestone m u d now)
  | Transition tr m u now => void (run_transition this tr m u now)
  | RequestDeletion m u now => void (MilestoneService.requestDeletion m u now)
  | AcceptRequestDeletion m u => void (MilestoneService.acceptRequestDeletion m u)
  end.

(** ** Ledger reconciliation *)

(** The sum of the amounts of the transactions of one type recorded for an
    escrow account. *)
Fixpoint escrow_total (ty : EscrowTransactionType.t) (id : string)
    (log : list EscrowTransaction) : Z :=
  match log with
  | [] => 0
  | tx :: log' =>
      (if bool_decide (et_escrowAccountId tx = id ∧ et_type tx = ty)
       then et_amount tx else 0) + escrow_total ty id log'
  end.

Definition reconciles (log : list EscrowTransaction) (id : string) (a : EscrowAccount) : Prop :=
  heldAmount a = initialAmount a
                 + escrow_total EscrowTransactionType.DEPOSIT id log
                 - escrow_total EscrowTransactionType.RELEASE id log
                 - escrow_total EscrowTransactionType.REFUND id log
  ∧ 0 ≤ heldAmount a.

Definition reconciled (s : Store) : Prop :=
  ∀ id a, escrowAccounts s !! id = Some a → reconciles (escrowTransactions s) id a.

(** ** Effects of the successful operations *)

(** The store after a deposit of [amount] by [userId], whose wallet was
    [w], into the account [eid], which was [a], of contract [contractId]. *)
Definition deposited (userId contractId eid : string) (amount : Z) (w : Wallet)
    (a : EscrowAccount) (s : Store) : Store :=
  mkStore (users s)
    (<[userId := mkWallet (wallet_id w) (availableBalance w - amount) (pendingBalance w)]>
       (wallets s))
    (walletTransactions s ++
       [mkWalletTransaction (wallet_id w) amount TransactionType.HOLD
          ("Escrow Deposit for Contract " +:+ contractId) (Some contractId)])%list
    (<[eid := mkEscrowAccount (escrow_contractId a) (heldAmount a + amount)
                (initialAmount a)]> (escrowAccounts s))
    (escrowTransactions s ++
       [mkEscrowTransaction eid amount EscrowTransactionType.DEPOSIT
          (Some (wallet_id w)) None ("Deposit for contract " +:+ contractId)])%list
    (contracts s) (milestones s) (clients s) (freelancers s) (jobs s).

(** The store after a release of [amount] from the account [eid], which
    was [a], to the freelancer, whose wallet was [w]. *)
Definition released (freelancer contractId eid : string) (amount : Z) (w : Wallet)
    (a : EscrowAccount) (s : Store) : Store :=
  mkStore (users s)
    (<[freelancer := mkWallet (wallet_id w) (availableBalance w) (pendingBalance w + amount)]>
       (wallets s))
    (walletTransactions s ++
       [mkWalletTransaction (wallet_id w) amount TransactionType.RELEASE
          "Milestone Completion (Pending)" None])%list
    (<[eid := mkEscrowAccount (escrow_contractId a) (heldAmount a - amount)
                (initialAmount a)]> (escrowAccounts s))
    (escrowTransactions s ++
       [mkEscrowTransaction eid amount EscrowTransactionType.RELEASE
          None (Some (wallet_id w))
          ("Funds released for Contract " +:+ contractId +:+ " milestone")])%list
    (contracts s) (milestones s) (clients s) (freelancers s) (jobs s).

(** The store after a refund of [amount] from the account [eid], which was
    [a], to the client, whose wallet was [w]. *)
Definition refunded (client contractId eid : string) (amount : Z) (isSystemRefund : bool)
    (w : Wallet) (a : EscrowAccount) (s : Store) : Store :=
  mkStore (users s)
    (<[client := mkWallet (wallet_id w) (availableBalance w + amount) (pendingBalance w)]>
       (wallets s))
    (walletTransactions s ++
       [mkWalletTransaction (wallet_id w) amount TransactionType.ADJUSTMENT
          ("Escrow Refund from Contract " +:+ contractId) (Some contractId)])%list
    (<[eid := mkEscrowAccount (escrow_contractId a) (heldAmount a - amount)
                (initialAmount a)]> (escrowAccounts s))
    (escrowTransactions s ++
       [mkEscrowTransaction eid amount EscrowTransactionType.REFUND
          None (Some (wallet_id w))
          ("Refund for contract " +:+ contractId +:+ " (System: " +:+
           EscrowService.bool_to_string isSystemRefund +:+ ")")])%list
    (contracts s) (milestones s) (clients s) (freelancers s) (jobs s).

(** The store after [amount] has moved from the pending to the available
    balance of the wallet of [userId], which was [w]. *)
Definition moved (userId : string) (amount : Z) (w : Wallet) (s : Store) : Store :=
  mkStore (users s)
    (<[userId := mkWallet (wallet_id w) (availableBalance w + amount)
                   (pendingBalance w - amount)]> (wallets s))
    (walletTransactions s ++
       [mkWalletTransaction (wallet_id w) amount TransactionType.ADJUSTMENT
          "Pending to Available Move" None])%list
    (escrowAccounts s) (escrowTransactions s) (contracts s) (milestones s)
    (clients s) (freelancers s) (jobs s).

(** The store after a payout of [amount] from the wallet of [userId], which
    was [w]. *)
Definition paid_out (userId : string) (amount : Z) (withdrawalId : string) (w : Wallet)
    (s : Store) : Store :=
  mkStore (users s)
    (<[userId := mkWallet (wallet_id w) (availableBalance w - amount) (pendingBalance w)]>
       (wallets s))
    (walletTransactions s ++
       [mkWalletTransaction (wallet_id w) amount TransactionType.WITHDRAWAL
          "Payout Deduction" (Some withdrawalId)])%list
    (escrowAccounts s) (escrowTransactions s) (contracts s) (milestones s)
    (clients s) (freelancers s) (jobs s).

(** Whether [updatePendingBalance] finds a row to update: the wallet of an
    ACTIVE user with the FREELANCER role. *)
Definition payable (userId : string) (s : Store) : option Wallet :=
  match wallets s !! userId, users s !! userId with
  | Some w, Some u =>
      if bool_decide (user_role u = Role.FREELANCER ∧ user_status u = UserStatus.ACTIVE)
      then Some w else None
  | _, _ => None
  end.

(** ** Example stores *)

(** One contract between a client and a freelancer, its escrow account still
    empty, the client's wallet holding 15000 minor units, and one milestone. *)
Definition scenario : Store :=
  mkStore
    {[ "client-1" := mkUser Role.CLIENT UserStatus.ACTIVE;
       "freelancer-1" := mkUser Role.FREELANCER UserStatus.ACTIVE ]}
    {[ "client-1" := mkWallet "wallet-c" 15000 0;
       "freelancer-1" := mkWallet "wallet-f" 0 0 ]}
    []
    {[ "escrow-1" := mkEscrowAccount "contract-1" 0 0 ]}
    []
    {[ "contract-1" := mkContract "client-1" "freelancer-1" "job-1" 100
                         ContractStatus.ACTIVE 0 None None ]}
    {[ "milestone-1" := mkMilestone "contract-1" 1 "Design" "" 50 (Some 1000)
                          MilestoneStatus.SUBMITTED None None None None ]}
    {[ "client-1" ]} {[ "freelancer-1" ]} {[ "job-1" ]}.

(** [scenario] with the milestone carrying a deletion request, stamped at
    time 5. *)
Definition scenario_stamped : Store :=
  set_milestones
    (insert "milestone-1"
       (mkMilestone "contract-1" 1 "Design" "" 50 (Some 1000)
          MilestoneStatus.SUBMITTED None None None (Some 5)))
    scenario.

(** [scenario] after the client has deposited 10000 into escrow. *)
Definition scenario_funded : Store :=
  (EscrowService.depositFunds "client-1" "contract-1" 10000 scenario).2.

(** The requests served on [scenario] in the reconciliation example: a
    deposit, a release, a release that is rejected, and a refund. *)
Definition scenario_calls : list FinanceCall :=
  [ DepositFunds "client-1" "contract-1" 10000;
    ReleaseFunds "client-1" "contract-1" 4000;
    ReleaseFunds "client-1" "contract-1" 99999;
    RefundFunds "contract-1" 1000 true ].

(** The milestone service as the contract service starts it: no admin
    bypass. *)
Definition service : MilestoneService.t := MilestoneService.new false false.


(** ** Funds *)

(** The sum of [f] over the rows of a table. *)
Definition sum_map {A} (f : A → Z) (m : gmap string A) : Z :=
  map_fold (λ _ x acc, f x + acc) 0 m.

(** All the money the ledger knows of: what the wallets hold, available or
    pending, and what the escrow accounts hold. *)
Definition wallets_total (s : Store) : Z :=
  sum_map (λ w, availableBalance w + pendingBalance w) (wallets s).
Definition held_total (s : Store) : Z := sum_map heldAmount (escrowAccounts s).
Definition funds (s : Store) : Z := wallets_total s + held_total s.

Definition wallets_nonneg (s : Store) : Prop :=
  ∀ u w, wallets s !! u = Some w → 0 ≤ availableBalance w ∧ 0 ≤ pendingBalance w.

(** The unique index on the [contractId] column of the escrow accounts. *)
Definition escrow_unique (s : Store) : Prop :=
  ∀ k1 k2 a1 a2, escrowAccounts s !! k1 = Some a1 → escrowAccounts s !! k2 = Some a2 →
    escrow_contractId a1 = escrow_contractId a2 → k1 = k2.

(** ** What a call does to the contract and milestone tables *)

(** The [data] object of the update a contract method issues. *)
Definition contract_data (call : ContractCall) (now : Date) : Contract → Contract :=
  match call with
  | StartContract => data_contract ContractStatus.ACTIVE (Some now) None None
  | SubmitWork => data_contract ContractStatus.REVIEW_PENDING None (Some now) None
  | CompleteContract => data_contract ContractStatus.COMPLETED None None (Some now)
  | DisputeContract => data_contract ContractStatus.DISPUTED None None None
  | TerminateContract => data_contract ContractStatus.TERMINATED None None (Some now)
  end.

(** The row [createContract] inserts. *)
Definition contract_row (data : CreateContractDTO) : Contract :=
  mkContract (dto_clientId data) (dto_freelancerId data) (dto_jobId data)
    (dto_contract_amount data) (default ContractStatus.PENDING (dto_status data))
    (dto_startDate data) (dto_endDate data) None.

(** The row [createMilestone] inserts on store [s]. *)
Definition milestone_row (data : MilestoneDTO) (s : Store) : Milestone :=
  mkMilestone (dto_contractId data)
    (Z.of_nat (size (milestones_of (dto_contractId data) s)) + 1)
    (dto_title data) (dto_description data) (dto_amount data) (Some (dto_dueDate data))
    MilestoneStatus.PENDING None None None None.

(** The milestone context resolves for user [u] in role [role] on the
    contract [cid]. *)
Definition context (s : Store) (cid u : string) (role : ContextRole) : Prop :=
  ∃ c, contracts s !! cid = Some c ∧ actionable c ∧ party role c = u.

Definition is_milestone_call (call : Call) : bool :=
  match call with
  | CreateMilestone _ _ _ _ | UpdateMilestone _ _ _ _ | Transition _ _ _ _
  | RequestDeletion _ _ _ | AcceptRequestDeletion _ _ => true
  | _ => false
  end.

(** Everything a call can do to the milestone table, with the conditions
    under which it does it: only [createMilestone] ever writes it. *)
Inductive milestone_effect (this : MilestoneService.t) (call : Call) (s s' : Store) : Prop :=
| effect_foreign :
    is_milestone_call call = false → milestones s' = milestones s →
    milestone_effect this call s s'
| effect_rejected :
    s' = s → milestone_effect this call s s'
| effect_create d u k now :
    call = CreateMilestone d u k now →
    context s (dto_contractId d) u CLIENT →
    0 < dto_amount d → now ≤ dto_dueDate d →
    milestones s !! k = None →
    s' = set_milestones (insert k (milestone_row d s)) s →
    milestone_effect this call s s'.

(** Everything a call can do to the contract table. *)
Inductive contract_effect (call : Call) (s s' : Store) : Prop :=
| ceffect_same :
    contracts s' = contracts s → contract_effect call s s'
| ceffect_create d k :
    call = CreateContract d k →
    contracts s !! k = None →
    contracts s' = <[k := contract_row d]> (contracts s) →
    contract_effect call s s'
| ceffect_transition op k now c :
    call = ContractOp op k now →
    contracts s !! k = Some c →
    contract_target op ∈ ContractService.VALID_TRANSITIONS (contract_status c) →
    contracts s' = <[k := contract_data op now c]> (contracts s) →
    contract_effect call s s'.

(** The milestones of every contract are numbered without gaps or
    repetitions: each sequence number lies between 1 and the number of the
    contract's milestones, and two milestones of a contract differ in it. *)
Definition sequenced (s : Store) : Prop :=
  ∀ k m, milestones s !! k = Some m →
    1 ≤ sequence m ≤ Z.of_nat (size (milestones_of (contractId m) s))
    ∧ ∀ k' m', milestones s !! k' = Some m' →
        contractId m' = contractId m → sequence m' = sequence m → k' = k.

(** Requests to the three services, served on [scenario]: a deposit, a
    release, a payout that the balance does not cover, a wallet for the
    freelancer (who has one), the submission of the contract's work and a
    request to delete the milestone. *)
Definition mixed_calls : list Call :=
  [ Finance (DepositFunds "client-1" "contract-1" 10000);
    Finance (ReleaseFunds "client-1" "contract-1" 4000);
    Finance (ProcessPayoutDeduction "client-1" 9999 "payout-1");
    InitializeUserWallet "freelancer-1" Role.FREELANCER "wallet-x";
    ContractOp SubmitWork "contract-1" 50;
    RequestDeletion "milestone-1" "client-1" 60 ].

(** [scenario] before any milestone was created. *)
Definition scenario_fresh : Store := set_milestones (λ _, ∅) scenario.

(** The status tables as step relations. *)
Definition contract_step (from to : ContractStatus.t) : Prop :=
  to ∈ ContractService.VALID_TRANSITIONS from.
Definition milestone_step (from to : MilestoneStatus.t) : Prop :=
  to ∈ MilestoneService.VALID_STATUS_TRANSITIONS from.

(** A contract whose status the table lets nothing follow. *)
Definition terminal (c : Contract) : Prop :=
  contract_status c = ContractStatus.COMPLETED
  ∨ contract_status c = ContractStatus.TERMINATED.

(** [scenario] after the contract has been terminated. *)
Definition scenario_terminated : Store :=
  (run_contract TerminateContract "contract-1" 70 scenario).2.

(** The milestone, the caller and the role of the calls whose write is in
    the callback of [withMilestoneContext]. *)
Definition context_of (call : Call) : option (string * string * ContextRole) :=
  match call with
  | UpdateMilestone m u _ _ => Some (m, u, CLIENT)
  | Transition tr m u _ => Some (m, u, milestone_role tr)
  | RequestDeletion m u _ => Some (m, u, CLIENT)
  | AcceptRequestDeletion m u => Some (m, u, FREELANCER)
  | _ => None
  end.

(** On [scenario_fresh]: the client adds a milestone and asks to update
    it, then each party tries every status change open to it, and the
    contract moves on. *)
Definition pending_calls : list Call :=
  [ CreateMilestone (mkMilestoneDTO "contract-1" "Build" "" 70 2000) "client-1"
      "milestone-2" 100;
    UpdateMilestone "milestone-2" "client-1"
      (mkPartialMilestoneDTO (Some "Build it") None (Some 80) None) 101;
    Transition SubmitMilestone "milestone-2" "freelancer-1" 102;
    Transition MarkMilestoneAsApprovedByFreelancer "milestone-2" "freelancer-1" 103;
    Transition RejectMilestone "milestone-2" "freelancer-1" 104;
    Transition DisputeMilestone "milestone-2" "client-1" 105;
    Transition ApproveWorkByClient "milestone-2" "client-1" 106;
    ContractOp SubmitWork "contract-1" 107 ].

(** Every milestone of the store is PENDING. *)
Definition all_pending (s : Store) : Prop :=
  ∀ k m, milestones s !! k = Some m → milestone_status m = MilestoneStatus.PENDING.

(** ** ContractController *)

(** What a handler sends: the status code and the JSON body. *)
Inductive ResponseBody :=
| JsonContract (c : Contract)
| JsonError (message code : string)      (* { message, code } *)
| JsonMessage (message : string).        (* { message } *)

Record Response := mkResponse { res_status : Z; res_body : ResponseBody }.

Module ContractController.

Import ContractStatus.

Definition handleError (err : Error) : Response :=
  match err with
  | DomainError message code statusCode => mkResponse statusCode (JsonError message code)
  | _ => mkResponse 500 (JsonMessage "Internal server error")
  end.

Definition validateUserAccess (contractId userId : string) : M Contract :=
  if bool_decide (contractId = "") then
    throw (DomainError "Contract ID is required" "MISSING_CONTRACT_ID" 400)
  else
    contract ← ContractService.getContractById contractId;
    match contract with
    | None => throw (DomainError "Contract not found" "CONTRACT_NOT_FOUND" 404)
    | Some c =>
        if bool_decide (clientId c ≠ userId ∧ freelancerId c ≠ userId) then
          throw (DomainError "Access denied" "ACCESS_DENIED" 403)
        else mret c
    end.

Definition validateClientAccess (contractId userId : string) : M Contract :=
  if bool_decide (contractId = "") then
    throw (DomainError "Contract ID is required" "MISSING_CONTRACT_ID" 400)
  else
    contract ← ContractService.getContractById contractId;
    match contract with
    | None => throw (DomainError "Contract not found" "CONTRACT_NOT_FOUND" 404)
    | Some c =>
        if bool_decide (clientId c ≠ userId) then
          throw (DomainError "Access denied" "ACCESS_DENIED" 403)
        else mret c
    end.

Definition validateFreelancerAccess (contractId userId : string) : M Contract :=
  if bool_decide (contractId = "") then
    throw (DomainError "Contract ID is required" "MISSING_CONTRACT_ID" 400)
  else
    contract ← ContractService.getContractById contractId;
    match contract with
    | None => throw (DomainError "Contract not found" "CONTRACT_NOT_FOUND" 404)
    | Some c =>
        if bool_decide (freelancerId c ≠ userId) then
          throw (DomainError "Access denied" "ACCESS_DENIED" 403)
        else mret c
    end.

(** [try { ...; res.status(200).json(contract) } catch (error) {
    this.handleError(error, res) }] *)
Definition respond (body : M Contract) (s : Store) : Response * Store :=
  match body s with
  | (Ok c, s') => (mkResponse 200 (JsonContract c), s')
  | (Err e, s') => (handleError e, s')
  end.

(** [contractId] is the route parameter, [userId] the user the token was
    issued to. *)
Definition getContractById (contractId userId : string) : Store → Response * Store :=
  respond (validateUserAccess contractId userId).

Definition startContract (contractId userId : string) (now : Date)
    : Store → Response * Store :=
  respond (
    contract ← validateClientAccess contractId userId;
    if bool_decide (contract_status contract ≠ PENDING) then
      throw (DomainError "Only pending contracts can be started"
               "INVALID_CONTRACT_STATUS" 400)
    else ContractService.startContract contractId now).

Definition submitWork (contractId userId : string) (now : Date)
    : Store → Response * Store :=
  respond (
    contract ← validateFreelancerAccess contractId userId;
    if bool_decide (contract_status contract ≠ ACTIVE) then
      throw (DomainError "Only active contracts can have work submitted"
               "INVALID_CONTRACT_STATUS" 400)
    else ContractService.submitWork contractId now).

Definition completeContract (contractId userId : string) (now : Date)
    : Store → Response * Store :=
  respond (
    contract ← validateClientAccess contractId userId;
    if bool_decide (contract_status contract ≠ REVIEW_PENDING) then
      throw (DomainError "Only contracts pending review can be completed"
               "INVALID_CONTRACT_STATUS" 400)
    else ContractService.completeContract contractId now).

Definition disputeContract (contractId userId : string) : Store → Response * Store :=
  respond (
    contract ← validateClientAccess contractId userId;
    if bool_decide (contract_status contract ≠ REVIEW_PENDING) then
      throw (DomainError "Only contracts pending review can be completed"
               "INVALID_CONTRACT_STATUS" 400)
    else ContractService.disputeContract contractId).

Definition terminateContract (contractId userId : string) (now : Date)
    : Store → Response * Store :=
  respond (
    contract ← validateUserAccess contractId userId;
    if bool_decide (contract_status contract = COMPLETED
                    ∨ contract_status contract = TERMINATED) then
      throw (DomainError "Completed or terminated contract cannot be terminated again"
               "INVALID_CONTRACT_sTATUS" 400)
    else ContractService.terminateContract contractId now).

End ContractController.

(** The handler of a status-changing route. *)
Definition handle (call : ContractCall) (contractId userId : string) (now : Date)
    : Store → Response * Store :=
  match call with
  | StartContract => ContractController.startContract contractId userId now
  | SubmitWork => ContractController.submitWork contractId userId now
  | CompleteContract => ContractController.completeContract contractId userId now
  | DisputeContract => ContractController.disputeContract contractId userId
  | TerminateContract => ContractController.terminateContract contractId userId now
  end.

(** Who a handler lets through, and in which status of the contract. *)
Definition admits (call : ContractCall) (c : Contract) (userId : string) : Prop :=
  match call with
  | StartContract => clientId c = userId ∧ contract_status c = ContractStatus.PENDING
  | SubmitWork => freelancerId c = userId ∧ contract_status c = ContractStatus.ACTIVE
  | CompleteContract | DisputeContract =>
      clientId c = userId ∧ contract_status c = ContractStatus.REVIEW_PENDING
  | TerminateContract =>
      (clientId c = userId ∨ freelancerId c = userId)
      ∧ contract_status c ≠ ContractStatus.COMPLETED
      ∧ contract_status c ≠ ContractStatus.TERMINATED
  end.

(** ** Two payouts at once *)

(** Two [processPayoutDeduction] requests on the wallet of one user whose
    transactions overlap.  The source opens both with [prisma.$transaction]
    without an isolation level, so they run at the default of the database,
    READ COMMITTED: a [findUnique] takes no lock and sees what is committed
    when it runs, and an update applies its [decrement] to the row as it is
    when the update runs.  In this schedule both transactions read before
    either writes; the first then writes and commits, and the second writes
    and commits after it. *)
Definition overlapping_payouts (userId : string) (amount1 : Z) (withdrawalId1 : string)
    (amount2 : Z) (withdrawalId2 : string) : M unit :=
  WalletService.payout_check userId amount1;;
  WalletService.payout_check userId amount2;;
  WalletService.payout_write userId amount1 withdrawalId1;;
  WalletService.payout_write userId amount2 withdrawalId2.

(** * Properties *)

(** ** Running the service monad *)

Ltac munfold :=
  unfold mbind, M_bind, mret, M_ret, throw, gets, modify, transaction.

(** Split on every test and lookup a computation branches on. *)
Ltac paths := repeat first [case_bool_decide | case_match].

Ltac prisma_unfold :=
  unfold wallet_findUnique, wallet_update, wallet_updateMany, walletTransaction_create,
    escrowAccount_findUnique, escrowAccount_update, escrowTransaction_create,
    contract_update, contract_create, wallet_upsert, milestone_findUnique, milestone_update, milestone_delete,
    milestone_count, milestone_create, milestone_findMany.

Lemma transaction_Err {A} (body : M A) s e :
  (transaction body s).1 = Err e → (transaction body s).2 = s.
Proof. unfold transaction. by destruct (body s) as [[a|e'] s']. Qed.

Lemma transaction_Ok {A} (body : M A) s a s' :
  body s = (Ok a, s') → transaction body s = (Ok a, s').
Proof. unfold transaction. by intros ->. Qed.

(** The escrow relation returns a row of the table, stored under the key it
    is returned with. *)
Lemma escrow_of_contract_Some cid s eid a :
  escrow_of_contract cid s = Some (eid, a) →
  escrowAccounts s !! eid = Some a ∧ escrow_contractId a = cid.
Proof.
  unfold escrow_of_contract. intros H.
  apply head_Some_elem_of in H.
  apply list_elem_of_filter in H as [Hc Hin].
  by apply elem_of_map_to_list in Hin.
Qed.

(** ** Integer columns *)

Ltac range := unfold int4, INT_MIN, INT_MAX in *; lia.

Lemma column_Some n : int4 n → column n = Some n.
Proof. intros H. unfold column. by rewrite bool_decide_eq_true_2. Qed.

Lemma column_None n : ¬ int4 n → column n = None.
Proof. intros H. unfold column. by rewrite bool_decide_eq_false_2. Qed.

(** Split on whether a value fits its column. *)
Ltac columns :=
  repeat match goal with
  | |- context [column ?n] =>
      destruct (decide (int4 n));
      [rewrite (column_Some n) by done;
       rewrite ?(bool_decide_eq_true_2 (int4 n)) by done
      |rewrite (column_None n) by done;
       rewrite ?(bool_decide_eq_false_2 (int4 n)) by done;
       rewrite ?(bool_decide_eq_false_2 (int4 _ ∧ int4 _)) by (intros [??]; done)];
      cbn
  end;
  rewrite ?(bool_decide_eq_true_2 (int4 _ ∧ int4 _)) by done.

(** ** The finance operations, path by path *)

Lemma depositFunds_unfold userId cid amount s :
  EscrowService.depositFunds userId cid amount s =
  if bool_decide (amount ≤ 0) then (Err (JsError "Deposit amount must be positive."), s)
  else match contracts s !! cid with
  | None => (Err (JsError "Contract not found."), s)
  | Some c =>
    match escrow_of_contract cid s with
    | None => (Err (JsError "Escrow account is not initialized for this contract."), s)
    | Some (eid, a) =>
      if bool_decide (clientId c ≠ userId) then
        (Err (JsError "Unauthorized: Only the contract client can deposit funds."), s)
      else match wallets s !! userId with
      | None => (Err (JsError "Insufficient available balance in client wallet."), s)
      | Some w =>
          if bool_decide (availableBalance w < amount) then
            (Err (JsError "Insufficient available balance in client wallet."), s)
          else if bool_decide (int4 (availableBalance w - amount)
                               ∧ int4 (heldAmount a + amount)) then
            (Ok tt, deposited userId cid eid amount w a s)
          else (Err integer_out_of_range, s)
      end
    end
  end.
Proof.
  unfold EscrowService.depositFunds, EscrowService._getContractWithEscrow.
  case_bool_decide; [done|].
  munfold.
  destruct (contracts s !! cid) as [c|]; [|done].
  destruct (escrow_of_contract cid s) as [[eid a]|] eqn:He; [|done].
  apply escrow_of_contract_Some in He as [He _].
  cbn. case_bool_decide; [done|].
  prisma_unfold. munfold.
  destruct (wallets s !! userId) as [w|] eqn:Hw; [|done].
  case_bool_decide; [done|].
  rewrite Hw. unfold decrement_available, increment_held. cbn.
  columns; [|done]. rewrite He. cbn. by columns.
Qed.

Lemma releaseFunds_unfold userId cid amount s :
  EscrowService.releaseFunds userId cid amount s =
  if bool_decide (amount ≤ 0) then (Err (JsError "Release amount must be positive."), s)
  else match contracts s !! cid with
  | None => (Err (JsError "Contract not found."), s)
  | Some c =>
    match escrow_of_contract cid s with
    | None => (Err (JsError "Escrow account is not initialized for this contract."), s)
    | Some (eid, a) =>
      if bool_decide (clientId c ≠ userId) then
        (Err (JsError "Unauthorized: Only the contract client can release funds."), s)
      else if bool_decide (heldAmount a < amount) then
        (Err (JsError ("Insufficient funds (" +:+ number_to_string (heldAmount a) +:+
                       ") held in escrow for release of " +:+ number_to_string amount +:+
                       ".")), s)
      else if bool_decide (int4 (heldAmount a - amount)) then
        match payable (freelancerId c) s with
        | None =>
            (Err (JsError ("Freelancer " +:+ freelancerId c +:+
                    " wallet not found or is inactive. Aborting Escrow transaction.")), s)
        | Some w =>
            if bool_decide (int4 (pendingBalance w + amount)) then
              (Ok tt, released (freelancerId c) cid eid amount w a s)
            else (Err integer_out_of_range, s)
        end
      else (Err integer_out_of_range, s)
    end
  end.
Proof.
  unfold EscrowService.releaseFunds, EscrowService._getContractWithEscrow.
  case_bool_decide as Hpos; [done|].
  munfold.
  destruct (contracts s !! cid) as [c|]; [|done].
  destruct (escrow_of_contract cid s) as [[eid a]|] eqn:He; [|done].
  apply escrow_of_contract_Some in He as [He _].
  cbn. case_bool_decide; [done|].
  unfold WalletService.updatePendingBalance. rewrite (bool_decide_eq_false_2 _ Hpos).
  prisma_unfold. munfold. rewrite He. cbn.
  case_bool_decide; [done|]. rewrite He.
  unfold decrement_held, increment_pending. cbn.
  columns; [|done].
  unfold payable.
  destruct (wallets s !! freelancerId c) as [w|] eqn:Hw; [|done].
  destruct (users s !! freelancerId c) as [u|]; [|done].
  case_bool_decide; [|done]. cbn.
  columns; [|done].
  rewrite bool_decide_eq_false_2 by done. cbn.
  rewrite lookup_insert_eq. cbn. by rewrite lookup_insert_eq.
Qed.

Lemma refundFunds_unfold cid amount isSystemRefund s :
  EscrowService.refundFunds cid amount isSystemRefund s =
  if bool_decide (amount ≤ 0) then (Err (JsError "Refund amount must be positive."), s)
  else match contracts s !! cid with
  | None => (Err (JsError "Contract not found."), s)
  | Some c =>
    match escrow_of_contract cid s with
    | None => (Err (JsError "Escrow account is not initialized for this contract."), s)
    | Some (eid, a) =>
      if bool_decide (heldAmount a < amount) then
        (Err (JsError ("Insufficient funds (" +:+ number_to_string (heldAmount a) +:+
                       ") held in escrow for refund of " +:+ number_to_string amount +:+
                       ".")), s)
      else if bool_decide (int4 (heldAmount a - amount)) then
        match wallets s !! clientId c with
        | None => (Err P2025, s)
        | Some w =>
            if bool_decide (int4 (availableBalance w + amount)) then
              (Ok tt, refunded (clientId c) cid eid amount isSystemRefund w a s)
            else (Err integer_out_of_range, s)
        end
      else (Err integer_out_of_range, s)
    end
  end.
Proof.
  unfold EscrowService.refundFunds, EscrowService._getContractWithEscrow.
  case_bool_decide; [done|].
  munfold.
  destruct (contracts s !! cid) as [c|]; [|done].
  destruct (escrow_of_contract cid s) as [[eid a]|] eqn:He; [|done].
  apply escrow_of_contract_Some in He as [He _].
  cbn. prisma_unfold. munfold. rewrite He. cbn.
  case_bool_decide; [done|]. rewrite He.
  unfold decrement_held, increment_available. cbn.
  columns; [|done].
  destruct (wallets s !! clientId c) as [w|]; [|done]. cbn.
  by columns.
Qed.

Lemma movePendingToAvailable_unfold userId amount s :
  WalletService.movePendingToAvailable userId amount s =
  if bool_decide (amount ≤ 0) then (Ok tt, s)
  else match wallets s !! userId with
  | None => (Err (JsError "Insufficient pending balance to move to available."), s)
  | Some w =>
      if bool_decide (pendingBalance w < amount) then
        (Err (JsError "Insufficient pending balance to move to available."), s)
      else if bool_decide (int4 (pendingBalance w - amount)
                           ∧ int4 (availableBalance w + amount)) then
        (Ok tt, moved userId amount w s)
      else (Err integer_out_of_range, s)
  end.
Proof.
  unfold WalletService.movePendingToAvailable.
  case_bool_decide; [done|].
  prisma_unfold. munfold.
  destruct (wallets s !! userId) as [w|] eqn:Hw; [|done].
  case_bool_decide; [done|]. rewrite Hw.
  unfold pending_to_available. cbn.
  by columns.
Qed.

Lemma processPayoutDeduction_unfold userId amount withdrawalId s :
  WalletService.processPayoutDeduction userId amount withdrawalId s =
  if bool_decide (amount ≤ 0) then (Ok tt, s)
  else match wallets s !! userId with
  | None => (Err (JsError "Insufficient available balance for payout deduction."), s)
  | Some w =>
      if bool_decide (availableBalance w < amount) then
        (Err (JsError "Insufficient available balance for payout deduction."), s)
      else if bool_decide (int4 (availableBalance w - amount)) then
        (Ok tt, paid_out userId amount withdrawalId w s)
      else (Err integer_out_of_range, s)
  end.
Proof.
  unfold WalletService.processPayoutDeduction.
  case_bool_decide; [done|].
  prisma_unfold. munfold.
  destruct (wallets s !! userId) as [w|] eqn:Hw; [|done].
  case_bool_decide; [done|]. rewrite Hw.
  unfold decrement_available. cbn.
  by columns.
Qed.

(** ** Atomicity *)

(** C3. A financial operation (escrow deposit, release, refund; wallet
    movePendingToAvailable, processPayoutDeduction) that fails, whatever the
    error and the step that raised it, leaves the whole store — wallet
    balances, held amounts and both transaction logs — as it was before the
    call. *)
Theorem finance_failure_leaves_store_unchanged (call : FinanceCall) (s : Store) (e : Error) :
  (run_finance call s).1 = Err e → (run_finance call s).2 = s.
Proof.
  destruct call; cbn [run_finance].
  - rewrite depositFunds_unfold. by repeat case_match.
  - rewrite releaseFunds_unfold. by repeat case_match.
  - rewrite refundFunds_unfold. by repeat case_match.
  - rewrite movePendingToAvailable_unfold. by repeat case_match.
  - rewrite processPayoutDeduction_unfold. by repeat case_match.
Qed.

(** Scenario C: a deposit of 20000 against an available balance of 15000. *)
Lemma finance_failure_leaves_store_unchanged_witness :
  (run_finance (DepositFunds "client-1" "contract-1" 20000) scenario).1
    = Err (JsError "Insufficient available balance in client wallet.")
  ∧ (run_finance (DepositFunds "client-1" "contract-1" 20000) scenario).2 = scenario.
Proof.
  split.
  - vm_compute. reflexivity.
  - apply (finance_failure_leaves_store_unchanged _ _
             (JsError "Insufficient available balance in client wallet.")).
    vm_compute. reflexivity.
Defined.

(** ** Deposit *)



(** ** Release *)



(** ** Non-positive amounts in the wallet service *)

(** C8, as the code has it. With a non-positive amount the three wallet
    operations return normally without raising any error, and the store — all
    balances and the wallet transaction log — is left as it was. *)
Theorem wallet_nonpositive_amount_is_silent_noop (userId withdrawalId : string)
    (amount : Z) (s : Store) :
  amount ≤ 0 →
  WalletService.updatePendingBalance userId amount s = (Ok tt, s)
  ∧ WalletService.movePendingToAvailable userId amount s = (Ok tt, s)
  ∧ WalletService.processPayoutDeduction userId amount withdrawalId s = (Ok tt, s).
Proof.
  intros Hle.
  unfold WalletService.updatePendingBalance, WalletService.movePendingToAvailable,
    WalletService.processPayoutDeduction.
  by rewrite !bool_decide_eq_true_2.
Qed.

Lemma wallet_nonpositive_amount_is_silent_noop_witness :
  WalletService.updatePendingBalance "freelancer-1" (-5) scenario = (Ok tt, scenario)
  ∧ WalletService.movePendingToAvailable "freelancer-1" (-5) scenario = (Ok tt, scenario)
  ∧ WalletService.processPayoutDeduction "freelancer-1" (-5) "payout-1" scenario
    = (Ok tt, scenario).
Proof.
  apply (wallet_nonpositive_amount_is_silent_noop "freelancer-1" "payout-1" (-5) scenario).
  lia.
Defined.

(** C8, as stated, fails: a zero amount does not make any of the three
    wallet operations fail. *)
Lemma wallet_nonpositive_amount_not_rejected :
  ¬ is_Err (WalletService.movePendingToAvailable "freelancer-1" 0 scenario).1
  ∧ ¬ is_Err (WalletService.processPayoutDeduction "freelancer-1" 0 "payout-1" scenario).1
  ∧ ¬ is_Err (WalletService.updatePendingBalance "freelancer-1" 0 scenario).1.
Proof. repeat split; intros [e He]; vm_compute in He; discriminate He. Qed.

(** ** Ledger reconciliation *)

Lemma escrow_total_app ty id log tx :
  escrow_total ty id (log ++ [tx])
  = escrow_total ty id log
    + (if bool_decide (et_escrowAccountId tx = id ∧ et_type tx = ty)
       then et_amount tx else 0).
Proof. induction log as [|tx' log IH]; cbn; [lia|]. rewrite IH. lia. Qed.

(** A transaction appended for another account, or of another type, does
    not move a total. *)
Lemma escrow_total_app_other ty id log tx :
  et_escrowAccountId tx ≠ id ∨ et_type tx ≠ ty →
  escrow_total ty id (log ++ [tx]) = escrow_total ty id log.
Proof.
  intros H. rewrite escrow_total_app, bool_decide_eq_false_2; [lia|].
  intros [Hid Hty]. by destruct H.
Qed.

Lemma escrow_total_app_same ty id log tx :
  et_escrowAccountId tx = id → et_type tx = ty →
  escrow_total ty id (log ++ [tx]) = escrow_total ty id log + et_amount tx.
Proof. intros ??. by rewrite escrow_total_app, bool_decide_eq_true_2. Qed.

(** One ledger movement: the held amount of the account [eid] moves by the
    amount of the one transaction appended for it, upwards for a DEPOSIT and
    downwards for a RELEASE or a REFUND, and does not become negative. *)
Lemma reconciled_movement s s' eid a a' tx :
  reconciled s →
  escrowAccounts s !! eid = Some a →
  escrowAccounts s' = <[eid := a']> (escrowAccounts s) →
  escrowTransactions s' = (escrowTransactions s ++ [tx])%list →
  et_escrowAccountId tx = eid →
  initialAmount a' = initialAmount a →
  0 ≤ heldAmount a' →
  heldAmount a' = heldAmount a
    + match et_type tx with
      | EscrowTransactionType.DEPOSIT => et_amount tx
      | _ => - et_amount tx
      end →
  reconciled s'.
Proof.
  intros Hrec Ha Haccs Hlog Htx Hinit Hnn Hheld id b Hb.
  rewrite Haccs in Hb. unfold reconciles. rewrite Hlog.
  destruct (decide (eid = id)) as [->|Hne].
  - rewrite lookup_insert_eq in Hb. injection Hb as <-.
    destruct (Hrec _ _ Ha) as [Hsum _]. split; [|done].
    rewrite Hheld, Hinit, Hsum.
    destruct (et_type tx) eqn:Hty.
    + rewrite (escrow_total_app_same EscrowTransactionType.DEPOSIT) by done.
      rewrite !escrow_total_app_other by (right; congruence). lia.
    + rewrite (escrow_total_app_same EscrowTransactionType.RELEASE) by done.
      rewrite !escrow_total_app_other by (right; congruence). lia.
    + rewrite (escrow_total_app_same EscrowTransactionType.REFUND) by done.
      rewrite !escrow_total_app_other by (right; congruence). lia.
  - rewrite lookup_insert_ne in Hb by done.
    destruct (Hrec _ _ Hb) as [Hsum Hpos]. split; [|done].
    rewrite !escrow_total_app_other by (left; congruence). done.
Qed.

(** Every finance call, accepted or rejected, keeps the ledger reconciled. *)
Lemma run_finance_reconciled call s :
  reconciled s → reconciled (run_finance call s).2.
Proof.
  intros Hrec. destruct call; cbn [run_finance].
  - rewrite depositFunds_unfold.
    paths; try done; subst. cbn [snd].
    match goal with H : escrow_of_contract _ _ = Some _ |- _ =>
      apply escrow_of_contract_Some in H as [Ha _] end.
    eapply reconciled_movement; [done|exact Ha|done|done|done|done|..]; cbn.
    + destruct (Hrec _ _ Ha). lia.
    + lia.
  - rewrite releaseFunds_unfold.
    paths; try done; subst. cbn [snd].
    match goal with H : escrow_of_contract _ _ = Some _ |- _ =>
      apply escrow_of_contract_Some in H as [Ha _] end.
    eapply reconciled_movement; [done|exact Ha|done|done|done|done|..]; cbn; lia.
  - rewrite refundFunds_unfold.
    paths; try done; subst. cbn [snd].
    match goal with H : escrow_of_contract _ _ = Some _ |- _ =>
      apply escrow_of_contract_Some in H as [Ha _] end.
    eapply reconciled_movement; [done|exact Ha|done|done|done|done|..]; cbn; lia.
  - rewrite movePendingToAvailable_unfold. by paths.
  - rewrite processPayoutDeduction_unfold. by paths.
Qed.

(** C1. Starting from a reconciled ledger, after any sequence of
    depositFunds, releaseFunds and refundFunds calls (and of the wallet
    operations), each accepted or rejected, every escrow account satisfies
    [heldAmount = initialAmount + Σ DEPOSIT − Σ RELEASE − Σ REFUND] over the
    transactions recorded for it, and its [heldAmount] is not negative. *)
Theorem ledger_reconciliation (calls : list FinanceCall) (s : Store) :
  reconciled s →
  ∀ id a, escrowAccounts (serve run_finance calls s) !! id = Some a →
    heldAmount a
    = initialAmount a
      + escrow_total EscrowTransactionType.DEPOSIT id
          (escrowTransactions (serve run_finance calls s))
      - escrow_total EscrowTransactionType.RELEASE id
          (escrowTransactions (serve run_finance calls s))
      - escrow_total EscrowTransactionType.REFUND id
          (escrowTransactions (serve run_finance calls s))
    ∧ 0 ≤ heldAmount a.
Proof.
  revert s. induction calls as [|call calls IH]; intros s Hrec.
  - exact Hrec.
  - cbn. apply IH. by apply run_finance_reconciled.
Qed.

(** A ledger without transactions, whose accounts hold their initial
    amount, is reconciled. *)
Lemma reconciled_fresh s :
  escrowTransactions s = [] →
  (∀ id a, escrowAccounts s !! id = Some a →
     heldAmount a = initialAmount a ∧ 0 ≤ initialAmount a) →
  reconciled s.
Proof.
  intros Hlog Haccs id a Ha. destruct (Haccs id a Ha) as [Heq Hnn].
  unfold reconciles. rewrite Hlog. cbn. lia.
Qed.

Lemma scenario_reconciled : reconciled scenario.
Proof.
  apply reconciled_fresh; [done|].
  intros id a Ha. cbn in Ha. by apply lookup_singleton_Some in Ha as [<- <-].
Qed.

Lemma ledger_reconciliation_witness :
  reconciled scenario
  ∧ escrowAccounts (serve run_finance scenario_calls scenario) !! "escrow-1"
    = Some (mkEscrowAccount "contract-1" 5000 0)
  ∧ 5000 = 0 + escrow_total EscrowTransactionType.DEPOSIT "escrow-1"
                 (escrowTransactions (serve run_finance scenario_calls scenario))
             - escrow_total EscrowTransactionType.RELEASE "escrow-1"
                 (escrowTransactions (serve run_finance scenario_calls scenario))
             - escrow_total EscrowTransactionType.REFUND "escrow-1"
                 (escrowTransactions (serve run_finance scenario_calls scenario))
  ∧ 0 ≤ 5000.
Proof.
  split; [exact scenario_reconciled|].
  split; [vm_compute; reflexivity|].
  apply (ledger_reconciliation scenario_calls scenario scenario_reconciled "escrow-1"
           (mkEscrowAccount "contract-1" 5000 0)).
  vm_compute. reflexivity.
Defined.

(** ** The milestone context *)

(** The name [withMilestoneContext] builds from its role tag is not the
    name of a method of the validator. *)
Lemma role_validator_undefined role :
  ContractValidator.static ("validate" +:+ role_to_string role +:+ "Only") = None.
Proof. by destruct role. Qed.

(** [withMilestoneContext], path by path: the callback is on none of
    them. *)
Lemma withMilestoneContext_unfold {T} mid u role (cb : Milestone * Contract → M T) s :
  MilestoneService.withMilestoneContext mid u role cb s =
  match milestones s !! mid with
  | None => (Err (DomainError "Milestone not found" "MILESTONE_NOT_FOUND" 404), s)
  | Some m =>
    match contracts s !! contractId m with
    | None => (Err (DomainError "Contract was not found" "CONTRACT_NOT_FOUND" 404), s)
    | Some c =>
      if bool_decide (contract_status c ≠ ContractStatus.ACTIVE
                      ∧ contract_status c ≠ ContractStatus.PENDING) then
        (Err (DomainError "Contract is not in valid state" "CONTRACT_INACTIVE" 400), s)
      else if negb (bool_decide (clientId c = u) || bool_decide (freelancerId c = u)) then
        (Err (DomainError "User is not authorized for this contract"
                "USER_NOT_AUTHORIZED" 403), s)
      else (Err TypeError, s)
    end
  end.
Proof.
  unfold MilestoneService.withMilestoneContext. rewrite role_validator_undefined.
  unfold MilestoneService.validateAndGetContext,
    MilestoneService.getMilestone, MilestoneService.getAndValidateContract,
    ContractService.getContractById, ContractValidator.validateContractExists,
    ContractValidator.validateContractStatus, ContractValidator.validateUserAccess.
  prisma_unfold. munfold.
  destruct (milestones s !! mid) as [m|]; cbn; [|done].
  destruct (contracts s !! contractId m) as [c|]; cbn; [|done].
  case_bool_decide; cbn; [done|].
  by destruct (negb _).
Qed.

(** Whatever the callback, a call of [withMilestoneContext] fails and
    writes nothing. *)
Lemma withMilestoneContext_fails {T} mid u role (cb : Milestone * Contract → M T) s :
  ∃ e, MilestoneService.withMilestoneContext mid u role cb s = (Err e, s).
Proof.
  rewrite withMilestoneContext_unfold.
  destruct (milestones s !! mid) as [m|]; [|by eexists].
  destruct (contracts s !! contractId m) as [c|]; [|by eexists].
  case_bool_decide; [by eexists|]. destruct (negb _); by eexists.
Qed.

(** With the milestone and its contract in place, the contract actionable
    and the caller a party to it, the call ends in the [TypeError]. *)
Lemma withMilestoneContext_TypeError {T} mid u role (cb : Milestone * Contract → M T) s m c :
  milestones s !! mid = Some m →
  contracts s !! contractId m = Some c →
  actionable c →
  clientId c = u ∨ freelancerId c = u →
  MilestoneService.withMilestoneContext mid u role cb s = (Err TypeError, s).
Proof.
  intros Hm Hc Hact Hparty. rewrite withMilestoneContext_unfold, Hm, Hc.
  rewrite bool_decide_eq_false_2 by (intros [??]; by destruct Hact).
  by destruct Hparty as [H1|H1]; rewrite (bool_decide_eq_true_2 _ H1), ?orb_true_r.
Qed.

(** ** Status transitions *)

Lemma contract_validateStatusTransition_illegal from to s :
  to ∉ ContractService.VALID_TRANSITIONS from →
  ContractService.validateStatusTransition from to s
  = (Err (DomainError "invalid contract status transition"
            "INVALID_CONTRACT_STATUS_TRANSITION" 400), s).
Proof.
  intros H. unfold ContractService.validateStatusTransition.
  by rewrite bool_decide_eq_true_2.
Qed.

(** The five status-changing methods have one shape. *)
Lemma run_transition_shape this tr mid uid now :
  run_transition this tr mid uid now
  = MilestoneService.withMilestoneContext mid uid (milestone_role tr) (λ ctx,
      MilestoneService.validateStatusTransition this (milestone_status ctx.1)
        (milestone_target tr);;
      milestone_update mid (transition_data tr now)).
Proof. by destruct tr. Qed.

(** C2, on the code.  On [scenario] the freelancer of the ACTIVE contract
    calls submitMilestone on its SUBMITTED milestone, without the admin
    bypass.  SUBMITTED does not follow SUBMITTED in the table, and the table
    check of the service, asked directly, answers
    INVALID_MILESTONE_STATUS_TRANSITION; but the method throws a
    [TypeError] before it gets there, as does every status-changing method
    of the milestone service once the context is resolved.  Nothing is
    written. *)
Theorem milestone_transition_throws_TypeError :
  (MilestoneStatus.SUBMITTED
     ∉ MilestoneService.VALID_STATUS_TRANSITIONS MilestoneStatus.SUBMITTED)
  ∧ MilestoneService.validateStatusTransition service MilestoneStatus.SUBMITTED
      MilestoneStatus.SUBMITTED scenario
    = (Err (DomainError "Invalid milestone status transition from SUBMITTED to SUBMITTED"
              "INVALID_MILESTONE_STATUS_TRANSITION" 400), scenario)
  ∧ run_transition service SubmitMilestone "milestone-1" "freelancer-1" 42 scenario
    = (Err TypeError, scenario)
  ∧ ∀ tr, run_transition service tr "milestone-1"
            (party (milestone_role tr)
               (mkContract "client-1" "freelancer-1" "job-1" 100 ContractStatus.ACTIVE 0
                  None None)) 42 scenario
          = (Err TypeError, scenario).
Proof.
  split_and!.
  - cbn. intros H. by repeat (apply elem_of_cons in H as [H|H]; [discriminate H|]);
      apply elem_of_nil in H.
  - vm_compute. reflexivity.
  - vm_compute. reflexivity.
  - intros tr. destruct tr; vm_compute; reflexivity.
Qed.

(** A contract status change that is not in the transition table is
    rejected and nothing is written: each of startContract, submitWork,
    completeContract, disputeContract and terminateContract fails with
    INVALID_CONTRACT_STATUS_TRANSITION when its target is not allowed from
    the contract's status. *)
Theorem illegal_contract_transition_rejected (call : ContractCall) (id : string)
    (now : Date) (s : Store) (c : Contract) :
  contracts s !! id = Some c →
  contract_target call ∉ ContractService.VALID_TRANSITIONS (contract_status c) →
  run_contract call id now s
  = (Err (DomainError "invalid contract status transition"
            "INVALID_CONTRACT_STATUS_TRANSITION" 400), s).
Proof.
  intros Hc Hill.
  assert (Hv : ContractService.validateContractExists id s = (Ok c, s)).
  { unfold ContractService.validateContractExists, ContractService.getContractById.
    munfold. by rewrite Hc. }
  destruct call; cbn [run_contract contract_target] in *;
    unfold ContractService.startContract, ContractService.submitWork,
      ContractService.completeContract, ContractService.disputeContract,
      ContractService.terminateContract;
    unfold mbind at 1, M_bind at 1; rewrite Hv;
    unfold mbind, M_bind;
    by rewrite (contract_validateStatusTransition_illegal _ _ _ Hill).
Qed.

(** completeContract on an ACTIVE contract. *)
Lemma illegal_contract_transition_rejected_witness :
  run_contract CompleteContract "contract-1" 42 scenario
  = (Err (DomainError "invalid contract status transition"
            "INVALID_CONTRACT_STATUS_TRANSITION" 400), scenario).
Proof.
  apply (illegal_contract_transition_rejected CompleteContract "contract-1" 42 scenario
           (mkContract "client-1" "freelancer-1" "job-1" 100 ContractStatus.ACTIVE 0
              None None)).
  - vm_compute. reflexivity.
  - vm_compute. intros H. by repeat (apply elem_of_cons in H as [H|H]; [discriminate H|]);
      apply elem_of_nil in H.
Defined.

(** ** Deletion of milestones *)

Lemma void_snd {A} (m : M A) s : (void m s).2 = (m s).2.
Proof. unfold void. munfold. by destruct (m s) as [[a|e] s']. Qed.

Lemma run_finance_milestones call s :
  milestones (run_finance call s).2 = milestones s.
Proof.
  destruct call; cbn [run_finance].
  - rewrite depositFunds_unfold. by paths.
  - rewrite releaseFunds_unfold. by paths.
  - rewrite refundFunds_unfold. by paths.
  - rewrite movePendingToAvailable_unfold. by paths.
  - rewrite processPayoutDeduction_unfold. by paths.
Qed.

Lemma run_contract_milestones call id now s :
  milestones (run_contract call id now s).2 = milestones s.
Proof.
  destruct call; cbn [run_contract];
    unfold ContractService.startContract, ContractService.submitWork,
      ContractService.completeContract, ContractService.disputeContract,
      ContractService.terminateContract, ContractService.validateContractExists,
      ContractService.getContractById, ContractService.validateStatusTransition;
    prisma_unfold; munfold;
    destruct (contracts s !! id) as [c|]; cbn; try done;
    case_bool_decide; cbn; try done;
    by destruct (contracts s !! id).
Qed.


(** C9, on the code.  On [scenario] the milestone of the ACTIVE contract
    carries no deletion request: acceptRequestDeletion by the freelancer
    throws a [TypeError], not NO_DELETION_REQUEST, and requestDeletion by
    the client throws the same error and does not stamp the milestone.  On
    [scenario_stamped], where the milestone carries a deletion request,
    acceptRequestDeletion by the freelancer throws the [TypeError] too and
    the milestone is still there. *)
Theorem deletion_handshake_throws_TypeError :
  MilestoneService.acceptRequestDeletion "milestone-1" "freelancer-1" scenario
  = (Err TypeError, scenario)
  ∧ MilestoneService.requestDeletion "milestone-1" "client-1" 90 scenario
    = (Err TypeError, scenario)
  ∧ (deletionRequestedAt <$> milestones scenario_stamped !! "milestone-1") = Some (Some 5)
  ∧ MilestoneService.acceptRequestDeletion "milestone-1" "freelancer-1" scenario_stamped
    = (Err TypeError, scenario_stamped).
Proof. split_and!; vm_compute; reflexivity. Qed.

(** ** Listing the milestones of a contract *)

(** C10. [getMilestones(contractId, userId)] looks its first argument up in
    the milestone table.  When no milestone has that id it fails with
    MILESTONE_NOT_FOUND, whatever the contract table holds — also when the
    contract exists, has milestones and the caller is its client. *)
Theorem getMilestones_wants_a_milestone_id (cid userId : string) (s : Store) :
  milestones s !! cid = None →
  MilestoneService.getMilestones cid userId s
  = (Err (DomainError "Milestone not found" "MILESTONE_NOT_FOUND" 404), s).
Proof.
  intros Hm. unfold MilestoneService.getMilestones.
  by rewrite withMilestoneContext_unfold, Hm.
Qed.

(** The client of "contract-1", which has one milestone, asks for its
    milestones. *)
Lemma getMilestones_wants_a_milestone_id_witness :
  (clientId <$> contracts scenario !! "contract-1") = Some "client-1"
  ∧ size (milestones_of "contract-1" scenario) = 1%nat
  ∧ MilestoneService.getMilestones "contract-1" "client-1" scenario
    = (Err (DomainError "Milestone not found" "MILESTONE_NOT_FOUND" 404), scenario).
Proof.
  split; [vm_compute; reflexivity|].
  split; [vm_compute; reflexivity|].
  apply (getMilestones_wants_a_milestone_id "contract-1" "client-1" scenario).
  vm_compute. reflexivity.
Defined.

(** ** Milestone sequence numbers *)


(** * Further properties of the ledger *)

(** ** Refund and the wallet operations *)

(** A refund of a positive amount on a contract with an escrow account asks
    nothing of its caller.  When the account holds less than [amount] it
    fails with the insufficient-funds error, which prints both numbers.
    Otherwise, when the client has a wallet, the held amount becomes
    [heldAmount − amount], the client's available balance becomes
    [availableBalance + amount], and one REFUND escrow transaction and one
    ADJUSTMENT wallet transaction of [amount] are recorded; nothing else
    changes.  This holds when the new available balance fits the INTEGER
    column; when it does not, the database refuses the increment, and when
    the client has no wallet the update fails (P2025): either way the
    decrement of the account is rolled back. *)
Theorem refundFunds_spec (contractId : string) (amount : Z) (isSystemRefund : bool)
    (s : Store) (c : Contract) (eid : string) (a : EscrowAccount) :
  0 < amount →
  contracts s !! contractId = Some c →
  escrow_of_contract contractId s = Some (eid, a) →
  int4 (heldAmount a) →
  (heldAmount a < amount → amount ≤ MAX_SAFE_INTEGER →
     EscrowService.refundFunds contractId amount isSystemRefund s
     = (Err (JsError ("Insufficient funds (" +:+ pretty (heldAmount a) +:+
                      ") held in escrow for refund of " +:+ pretty amount +:+ ".")), s))
  ∧ (amount ≤ heldAmount a →
     (∀ w, wallets s !! clientId c = Some w → int4 (availableBalance w) →
        (availableBalance w + amount ≤ INT_MAX →
           EscrowService.refundFunds contractId amount isSystemRefund s
           = (Ok tt,
              mkStore (users s)
                (<[clientId c := mkWallet (wallet_id w) (availableBalance w + amount)
                                   (pendingBalance w)]> (wallets s))
                (walletTransactions s ++
                   [mkWalletTransaction (wallet_id w) amount TransactionType.ADJUSTMENT
                      ("Escrow Refund from Contract " +:+ contractId)
                      (Some contractId)])%list
                (<[eid := mkEscrowAccount (escrow_contractId a) (heldAmount a - amount)
                            (initialAmount a)]> (escrowAccounts s))
                (escrowTransactions s ++
                   [mkEscrowTransaction eid amount EscrowTransactionType.REFUND
                      None (Some (wallet_id w))
                      ("Refund for contract " +:+ contractId +:+ " (System: " +:+
                       (if isSystemRefund then "true" else "false") +:+ ")")])%list
                (contracts s) (milestones s) (clients s) (freelancers s) (jobs s)))
        ∧ (INT_MAX < availableBalance w + amount →
           EscrowService.refundFunds contractId amount isSystemRefund s
           = (Err integer_out_of_range, s)))
     ∧ (wallets s !! clientId c = None →
        EscrowService.refundFunds contractId amount isSystemRefund s = (Err P2025, s))).
Proof.
  intros Hpos Hc He Hfa. rewrite refundFunds_unfold, Hc, He.
  rewrite bool_decide_eq_false_2 by lia.
  split; [intros Hlt _; by rewrite bool_decide_eq_true_2|].
  intros Hle. rewrite bool_decide_eq_false_2 by lia.
  rewrite bool_decide_eq_true_2 by range.
  split; [intros w Hw Hfw|intros Hw]; rewrite Hw; [|done].
  split; intros Hb.
  - by rewrite bool_decide_eq_true_2 by range.
  - by rewrite bool_decide_eq_false_2 by range.
Qed.

Lemma refundFunds_spec_witness :
  ∃ s',
    EscrowService.refundFunds "contract-1" 2500 true scenario_funded = (Ok tt, s')
    ∧ wallets s' !! "client-1" = Some (mkWallet "wallet-c" 7500 0)
    ∧ escrowAccounts s' !! "escrow-1" = Some (mkEscrowAccount "contract-1" 7500 0)
    ∧ length (escrowTransactions s') = 2%nat
    ∧ length (walletTransactions s') = 2%nat.
Proof.
  eexists. split.
  - refine (proj1 (proj1 (proj2 (refundFunds_spec "contract-1" 2500 true scenario_funded
              (mkContract "client-1" "freelancer-1" "job-1" 100 ContractStatus.ACTIVE 0
                 None None)
              "escrow-1" (mkEscrowAccount "contract-1" 10000 0) _ _ _ _) _)
            (mkWallet "wallet-c" 5000 0) _ _) _).
    + lia.
    + vm_compute. reflexivity.
    + vm_compute. reflexivity.
    + vm_compute. split; discriminate.
    + simpl. lia.
    + vm_compute. reflexivity.
    + vm_compute. split; discriminate.
    + vm_compute. discriminate.
  - vm_compute. repeat split; reflexivity.
Defined.

(** With a positive amount and a wallet whose balance covers it,
    [movePendingToAvailable] takes [amount] off the pending balance and adds
    it to the available balance, with one ADJUSTMENT wallet transaction,
    unless the new available balance leaves the INTEGER column, in which
    case the database refuses the update and nothing changes;
    [processPayoutDeduction] takes [amount] off the available balance, with
    one WITHDRAWAL wallet transaction tagged with the payout id.  With a
    smaller balance or no wallet each fails with its own error and changes
    nothing. *)
Theorem wallet_operations_spec (userId withdrawalId : string) (amount : Z) (s : Store) :
  0 < amount →
  (∀ w, wallets s !! userId = Some w →
     int4 (availableBalance w) → int4 (pendingBalance w) →
     (amount ≤ pendingBalance w → availableBalance w + amount ≤ INT_MAX →
        WalletService.movePendingToAvailable userId amount s
        = (Ok tt,
           mkStore (users s)
             (<[userId := mkWallet (wallet_id w) (availableBalance w + amount)
                            (pendingBalance w - amount)]> (wallets s))
             (walletTransactions s ++
                [mkWalletTransaction (wallet_id w) amount TransactionType.ADJUSTMENT
                   "Pending to Available Move" None])%list
             (escrowAccounts s) (escrowTransactions s) (contracts s) (milestones s)
             (clients s) (freelancers s) (jobs s)))
     ∧ (amount ≤ pendingBalance w → INT_MAX < availableBalance w + amount →
        WalletService.movePendingToAvailable userId amount s
        = (Err integer_out_of_range, s))
     ∧ (pendingBalance w < amount →
        WalletService.movePendingToAvailable userId amount s
        = (Err (JsError "Insufficient pending balance to move to available."), s))
     ∧ (amount ≤ availableBalance w →
        WalletService.processPayoutDeduction userId amount withdrawalId s
        = (Ok tt,
           mkStore (users s)
             (<[userId := mkWallet (wallet_id w) (availableBalance w - amount)
                            (pendingBalance w)]> (wallets s))
             (walletTransactions s ++
                [mkWalletTransaction (wallet_id w) amount TransactionType.WITHDRAWAL
                   "Payout Deduction" (Some withdrawalId)])%list
             (escrowAccounts s) (escrowTransactions s) (contracts s) (milestones s)
             (clients s) (freelancers s) (jobs s)))
     ∧ (availableBalance w < amount →
        WalletService.processPayoutDeduction userId amount withdrawalId s
        = (Err (JsError "Insufficient available balance for payout deduction."), s)))
  ∧ (wallets s !! userId = None →
     WalletService.movePendingToAvailable userId amount s
     = (Err (JsError "Insufficient pending balance to move to available."), s)
     ∧ WalletService.processPayoutDeduction userId amount withdrawalId s
       = (Err (JsError "Insufficient available balance for payout deduction."), s)).
Proof.
  intros Hpos.
  rewrite movePendingToAvailable_unfold, processPayoutDeduction_unfold.
  rewrite !bool_decide_eq_false_2 by lia.
  split.
  - intros w -> Hfa Hfp. split_and!.
    + intros H1 H2. rewrite bool_decide_eq_false_2 by lia.
      by rewrite bool_decide_eq_true_2 by (split; range).
    + intros H1 H2. rewrite bool_decide_eq_false_2 by lia.
      by rewrite bool_decide_eq_false_2 by (intros [??]; range).
    + intros H. by rewrite bool_decide_eq_true_2.
    + intros H. rewrite bool_decide_eq_false_2 by lia.
      by rewrite bool_decide_eq_true_2 by range.
    + intros H. by rewrite bool_decide_eq_true_2.
  - by intros ->.
Qed.

Lemma wallet_operations_spec_witness :
  (∃ s',
     WalletService.processPayoutDeduction "client-1" 15000 "payout-1" scenario = (Ok tt, s')
     ∧ wallets s' !! "client-1" = Some (mkWallet "wallet-c" 0 0)
     ∧ walletTransactions s'
       = [mkWalletTransaction "wallet-c" 15000 TransactionType.WITHDRAWAL
            "Payout Deduction" (Some "payout-1")])
  ∧ WalletService.movePendingToAvailable "client-1" 1 scenario
    = (Err (JsError "Insufficient pending balance to move to available."), scenario).
Proof.
  split.
  - eexists. split.
    + refine (proj1 (proj2 (proj2 (proj2 (proj1
                (wallet_operations_spec "client-1" "payout-1" 15000 scenario _)
                (mkWallet "wallet-c" 15000 0) _ _ _)))) _).
      * lia.
      * vm_compute. reflexivity.
      * vm_compute. split; discriminate.
      * vm_compute. split; discriminate.
      * simpl. lia.
    + vm_compute. split; reflexivity.
  - refine (proj1 (proj2 (proj2 (proj1
              (wallet_operations_spec "client-1" "payout-1" 1 scenario _)
              (mkWallet "wallet-c" 15000 0) _ _ _))) _).
    + lia.
    + vm_compute. reflexivity.
    + vm_compute. split; discriminate.
    + vm_compute. split; discriminate.
    + simpl. lia.
Defined.

(** ** Two payouts at once *)

(** [processPayoutDeduction] with a positive amount is its two statements,
    run in one transaction. *)
Lemma processPayoutDeduction_statements userId amount withdrawalId s :
  0 < amount →
  WalletService.processPayoutDeduction userId amount withdrawalId s
  = transaction (WalletService.payout_check userId amount;;
                 WalletService.payout_write userId amount withdrawalId) s.
Proof.
  intros Hpos.
  unfold WalletService.processPayoutDeduction, WalletService.payout_check,
    WalletService.payout_write.
  rewrite bool_decide_eq_false_2 by lia.
  prisma_unfold. munfold.
  destruct (wallets s !! userId) as [w|]; [|done].
  by case_bool_decide.
Qed.

(** When two payouts overlap and each is covered by the balance on its
    own, both pass the check and both decrements are applied: the wallet
    ends with its available balance lowered by the two amounts together,
    below zero when together they exceed it, and with one WITHDRAWAL row for
    each. *)
Theorem overlapping_payouts_both_pass (userId : string) (amount1 amount2 : Z)
    (withdrawalId1 withdrawalId2 : string) (s : Store) (w : Wallet) :
  wallets s !! userId = Some w →
  0 < amount1 ≤ availableBalance w →
  0 < amount2 ≤ availableBalance w →
  availableBalance w ≤ INT_MAX →
  overlapping_payouts userId amount1 withdrawalId1 amount2 withdrawalId2 s
  = (Ok tt,
     mkStore (users s)
       (<[userId := mkWallet (wallet_id w) (availableBalance w - amount1 - amount2)
                      (pendingBalance w)]> (wallets s))
       (walletTransactions s ++
          [mkWalletTransaction (wallet_id w) amount1 TransactionType.WITHDRAWAL
             "Payout Deduction" (Some withdrawalId1);
           mkWalletTransaction (wallet_id w) amount2 TransactionType.WITHDRAWAL
             "Payout Deduction" (Some withdrawalId2)])%list
       (escrowAccounts s) (escrowTransactions s) (contracts s) (milestones s)
       (clients s) (freelancers s) (jobs s)).
Proof.
  intros Hw H1 H2 Hfit.
  unfold overlapping_payouts, WalletService.payout_check, WalletService.payout_write.
  prisma_unfold. munfold. rewrite Hw.
  rewrite (bool_decide_eq_false_2 (availableBalance w < amount1)) by lia. cbn.
  rewrite Hw.
  rewrite (bool_decide_eq_false_2 (availableBalance w < amount2)) by lia. cbn.
  rewrite Hw. unfold decrement_available. cbn.
  rewrite (column_Some (availableBalance w - amount1)) by range. cbn.
  rewrite lookup_insert_eq. cbn.
  rewrite (column_Some (availableBalance w - amount1 - amount2)) by range. cbn.
  unfold set_walletTransactions, set_wallets. cbn.
  by rewrite insert_insert_eq, <-app_assoc.
Qed.

(** C6, on the code.  The wallet of "client-1" holds 15000.  Served one
    after the other, the second of two payouts of 10000 is refused and the
    balance ends at 5000.  When the two requests overlap as in
    [overlapping_payouts], both pass the balance check and both decrements
    are applied: the available balance ends at −5000, with two WITHDRAWAL
    rows of 10000. *)
Theorem overlapping_payouts_overdraw :
  (WalletService.processPayoutDeduction "client-1" 10000 "payout-1";;
   WalletService.processPayoutDeduction "client-1" 10000 "payout-2") scenario
  = (Err (JsError "Insufficient available balance for payout deduction."),
     paid_out "client-1" 10000 "payout-1" (mkWallet "wallet-c" 15000 0) scenario)
  ∧ (availableBalance
       <$> wallets (paid_out "client-1" 10000 "payout-1" (mkWallet "wallet-c" 15000 0)
                      scenario) !! "client-1") = Some 5000
  ∧ (overlapping_payouts "client-1" 10000 "payout-1" 10000 "payout-2" scenario).1 = Ok tt
  ∧ (availableBalance
       <$> wallets (overlapping_payouts "client-1" 10000 "payout-1" 10000 "payout-2"
                      scenario).2 !! "client-1") = Some (-5000)
  ∧ walletTransactions (overlapping_payouts "client-1" 10000 "payout-1" 10000 "payout-2"
                          scenario).2
    = [mkWalletTransaction "wallet-c" 10000 TransactionType.WITHDRAWAL
         "Payout Deduction" (Some "payout-1");
       mkWalletTransaction "wallet-c" 10000 TransactionType.WITHDRAWAL
         "Payout Deduction" (Some "payout-2")].
Proof. split_and!; vm_compute; reflexivity. Qed.

Lemma overlapping_payouts_both_pass_witness :
  (availableBalance
     <$> wallets (overlapping_payouts "client-1" 10000 "payout-1" 9000 "payout-2"
                    scenario).2 !! "client-1") = Some (-4000).
Proof.
  rewrite (overlapping_payouts_both_pass "client-1" 10000 9000 "payout-1" "payout-2"
             scenario (mkWallet "wallet-c" 15000 0)).
  - vm_compute. reflexivity.
  - vm_compute. reflexivity.
  - simpl. lia.
  - simpl. lia.
  - vm_compute. discriminate.
Defined.

(** ** Requests the escrow service turns away *)

(** Each escrow operation rejects a non-positive amount with its own
    message, a contract that does not exist with "Contract not found." and
    a contract without escrow account with the not-initialized message; a
    release asked by anyone but the contract's client is unauthorized.
    Nothing is written in any of these cases. *)
Theorem escrow_rejections (userId contractId : string) (amount : Z) (b : bool) (s : Store) :
  (amount ≤ 0 →
     EscrowService.depositFunds userId contractId amount s
     = (Err (JsError "Deposit amount must be positive."), s)
     ∧ EscrowService.releaseFunds userId contractId amount s
       = (Err (JsError "Release amount must be positive."), s)
     ∧ EscrowService.refundFunds contractId amount b s
       = (Err (JsError "Refund amount must be positive."), s))
  ∧ (0 < amount → contracts s !! contractId = None →
     EscrowService.depositFunds userId contractId amount s
     = (Err (JsError "Contract not found."), s)
     ∧ EscrowService.releaseFunds userId contractId amount s
       = (Err (JsError "Contract not found."), s)
     ∧ EscrowService.refundFunds contractId amount b s
       = (Err (JsError "Contract not found."), s))
  ∧ (0 < amount → is_Some (contracts s !! contractId) →
     escrow_of_contract contractId s = None →
     EscrowService.depositFunds userId contractId amount s
     = (Err (JsError "Escrow account is not initialized for this contract."), s)
     ∧ EscrowService.releaseFunds userId contractId amount s
       = (Err (JsError "Escrow account is not initialized for this contract."), s)
     ∧ EscrowService.refundFunds contractId amount b s
       = (Err (JsError "Escrow account is not initialized for this contract."), s))
  ∧ (∀ c, 0 < amount → contracts s !! contractId = Some c →
     is_Some (escrow_of_contract contractId s) → clientId c ≠ userId →
     EscrowService.releaseFunds userId contractId amount s
     = (Err (JsError "Unauthorized: Only the contract client can release funds."), s)).
Proof.
  rewrite depositFunds_unfold, releaseFunds_unfold, refundFunds_unfold.
  repeat apply conj.
  - intros H. by rewrite !bool_decide_eq_true_2.
  - intros H ->. by rewrite !bool_decide_eq_false_2 by lia.
  - intros H [c ->] ->. by rewrite !bool_decide_eq_false_2 by lia.
  - intros c H -> [[eid a] ->] Hne.
    by rewrite bool_decide_eq_false_2, bool_decide_eq_true_2 by (done || lia).
Qed.

Lemma escrow_rejections_witness :
  EscrowService.refundFunds "contract-9" 100 true scenario
  = (Err (JsError "Contract not found."), scenario)
  ∧ EscrowService.releaseFunds "freelancer-1" "contract-1" 100 scenario
    = (Err (JsError "Unauthorized: Only the contract client can release funds."), scenario).
Proof.
  split.
  - refine (proj2 (proj2 (proj1 (proj2
              (escrow_rejections "client-1" "contract-9" 100 true scenario)) _ _))).
    + lia.
    + vm_compute. reflexivity.
  - refine (proj2 (proj2 (proj2
              (escrow_rejections "freelancer-1" "contract-1" 100 true scenario)))
              (mkContract "client-1" "freelancer-1" "job-1" 100 ContractStatus.ACTIVE 0
                 None None) _ _ _ _).
    + lia.
    + vm_compute. reflexivity.
    + vm_compute. by eexists.
    + discriminate.
Defined.

(** ** Conservation of funds *)

Lemma sum_map_insert_None {A} (f : A → Z) (m : gmap string A) k x :
  m !! k = None → sum_map f (<[k := x]> m) = f x + sum_map f m.
Proof.
  intros Hk. unfold sum_map. rewrite map_fold_insert_L; [done| |done].
  intros. lia.
Qed.

(** Rewriting a row moves the sum by the difference of the two rows. *)
Lemma sum_map_insert_Some {A} (f : A → Z) (m : gmap string A) k x y :
  m !! k = Some y → sum_map f (<[k := x]> m) = sum_map f m - f y + f x.
Proof.
  intros Hk. rewrite <-(insert_delete_id m k y Hk) at 2.
  rewrite <-(insert_delete_eq m).
  rewrite !sum_map_insert_None by apply lookup_delete_eq. lia.
Qed.

(** What a finance call does to the funds: only a payout that goes
    through changes them, by the amount paid out. *)
Lemma run_finance_funds call s :
  match call with
  | ProcessPayoutDeduction u a _ =>
      (0 < a ∧ funds (run_finance call s).2 = funds s - a)
      ∨ (run_finance call s).2 = s
  | _ => funds (run_finance call s).2 = funds s
  end.
Proof.
  destruct call; cbn [run_finance].
  - rewrite depositFunds_unfold. paths; try done; subst.
    match goal with H : escrow_of_contract _ _ = Some _ |- _ =>
      apply escrow_of_contract_Some in H as [Ha _] end.
    unfold funds, wallets_total, held_total. cbn.
    rewrite (sum_map_insert_Some _ _ _ _ _ Ha).
    match goal with H : wallets _ !! _ = Some _ |- _ =>
      rewrite (sum_map_insert_Some _ _ _ _ _ H) end.
    cbn. lia.
  - rewrite releaseFunds_unfold. paths; try done; subst.
    match goal with H : escrow_of_contract _ _ = Some _ |- _ =>
      apply escrow_of_contract_Some in H as [Ha _] end.
    match goal with H : payable _ _ = Some _ |- _ =>
      unfold payable in H; repeat case_match; try done; injection H as -> end.
    unfold funds, wallets_total, held_total. cbn.
    rewrite (sum_map_insert_Some _ _ _ _ _ Ha).
    match goal with H : wallets _ !! _ = Some _ |- _ =>
      rewrite (sum_map_insert_Some _ _ _ _ _ H) end.
    cbn. lia.
  - rewrite refundFunds_unfold. paths; try done; subst.
    match goal with H : escrow_of_contract _ _ = Some _ |- _ =>
      apply escrow_of_contract_Some in H as [Ha _] end.
    unfold funds, wallets_total, held_total. cbn.
    rewrite (sum_map_insert_Some _ _ _ _ _ Ha).
    match goal with H : wallets _ !! _ = Some _ |- _ =>
      rewrite (sum_map_insert_Some _ _ _ _ _ H) end.
    cbn. lia.
  - rewrite movePendingToAvailable_unfold. paths; try done; subst.
    unfold funds, wallets_total, held_total. cbn.
    match goal with H : wallets _ !! _ = Some _ |- _ =>
      rewrite (sum_map_insert_Some _ _ _ _ _ H) end.
    cbn. lia.
  - rewrite processPayoutDeduction_unfold.
    destruct (wallets s !! userId) as [w|] eqn:Hw; [|right; by case_bool_decide].
    paths; try (by right). left. split; [lia|].
    unfold funds, wallets_total, held_total. cbn.
    rewrite (sum_map_insert_Some _ _ _ _ _ Hw). cbn. lia.
Qed.

Lemma serve_cons {C A} (run : C → M A) call calls s :
  serve run (call :: calls) s = serve run calls (run call s).2.
Proof. done. Qed.

(** Money is never created: over any sequence of finance calls the funds of
    the ledger — wallet balances plus held amounts — do not grow, and they
    stay the same when no payout is among the calls. *)
Theorem funds_never_created (calls : list FinanceCall) (s : Store) :
  funds (serve run_finance calls s) ≤ funds s
  ∧ ((∀ u a w, ProcessPayoutDeduction u a w ∉ calls) →
     funds (serve run_finance calls s) = funds s).
Proof.
  revert s. induction calls as [|call calls IH]; intros s; [done|].
  rewrite serve_cons. destruct (IH (run_finance call s).2) as [IHle IHeq].
  pose proof (run_finance_funds call s) as Hcall. split.
  - etrans; [exact IHle|].
    destruct call; try (rewrite Hcall; done).
    destruct Hcall as [[Hpos ->]| ->]; [lia|done].
  - intros Hno. rewrite IHeq.
    + destruct call; try done. destruct (Hno userId amount withdrawalId). by left.
    + intros u a w Hin. destruct (Hno u a w). by right.
Qed.

Lemma funds_never_created_witness :
  funds (serve run_finance scenario_calls scenario) = 15000
  ∧ funds scenario = 15000.
Proof.
  split; [|vm_compute; reflexivity].
  rewrite (proj2 (funds_never_created scenario_calls scenario)).
  - vm_compute. reflexivity.
  - intros u a w Hin. unfold scenario_calls in Hin.
    repeat (apply elem_of_cons in Hin as [Hin|Hin]; [discriminate Hin|]).
    by apply elem_of_nil in Hin.
Defined.

(** ** Balances and their audit rows *)

(** A finance call either leaves the wallets and their log alone, or
    rewrites the balances of exactly one wallet and appends exactly one
    wallet transaction: for that wallet, of a positive amount, which is the
    amount by which the available or the pending balance moved. *)
Theorem wallet_change_has_one_audit_row (call : FinanceCall) (s : Store) :
  (wallets (run_finance call s).2 = wallets s
   ∧ walletTransactions (run_finance call s).2 = walletTransactions s)
  ∨ (∃ u w w' row,
       wallets s !! u = Some w
       ∧ wallets (run_finance call s).2 = <[u := w']> (wallets s)
       ∧ wallet_id w' = wallet_id w
       ∧ walletTransactions (run_finance call s).2 = (walletTransactions s ++ [row])%list
       ∧ wt_walletId row = wallet_id w
       ∧ 0 < wt_amount row
       ∧ (Z.abs (availableBalance w' - availableBalance w) = wt_amount row
          ∨ Z.abs (pendingBalance w' - pendingBalance w) = wt_amount row)).
Proof.
  destruct call; cbn [run_finance].
  - rewrite depositFunds_unfold. paths; try (by left); subst. right.
    do 4 eexists. split_and!; cbn; try done; [cbn; lia|left; cbn; lia].
  - rewrite releaseFunds_unfold. paths; try (by left); subst. right.
    match goal with H : payable _ _ = Some _ |- _ =>
      unfold payable in H; repeat case_match; try done; injection H as -> end.
    do 4 eexists. split_and!; cbn; try done; [cbn; lia|right; cbn; lia].
  - rewrite refundFunds_unfold. paths; try (by left); subst. right.
    do 4 eexists. split_and!; cbn; try done; [cbn; lia|left; cbn; lia].
  - rewrite movePendingToAvailable_unfold. paths; try (by left); subst. right.
    do 4 eexists. split_and!; cbn; try done; [cbn; lia|left; cbn; lia].
  - rewrite processPayoutDeduction_unfold. paths; try (by left); subst. right.
    do 4 eexists. split_and!; cbn; try done; [cbn; lia|left; cbn; lia].
Qed.

(** * The contract and milestone services, call by call *)

(** ** Normal forms *)

Lemma initializeUserWallet_unfold userId role id s :
  WalletService.initializeUserWallet userId role id s =
  match wallets s !! userId with
  | Some w => (Ok w, s)
  | None =>
      match users s !! userId with
      | Some _ => (Ok (mkWallet id 0 0), set_wallets (insert userId (mkWallet id 0 0)) s)
      | None => (Err (JsError "Failed to ensure user wallet existence."), s)
      end
  end.
Proof.
  unfold WalletService.initializeUserWallet, WalletService.try_catch, wallet_upsert.
  destruct (wallets s !! userId); [done|]. by destruct (users s !! userId).
Qed.

(** [createContract] either fails and writes nothing, or adds its row
    under a fresh key. *)
Lemma createContract_cases data id s :
  (∃ e, ContractService.createContract data id s = (Err e, s))
  ∨ (contracts s !! id = None
     ∧ ContractService.createContract data id s
       = (Ok (contract_row data), set_contracts (insert id (contract_row data)) s)).
Proof.
  unfold ContractService.createContract, contract_create.
  case_bool_decide as Hdup; [left; by eexists|].
  case_bool_decide; [|left; by eexists].
  right. split; [|done].
  destruct (contracts s !! id) eqn:Hc; [|done]. destruct Hdup. left. by eexists.
Qed.

Lemma run_contract_unfold call id now s :
  run_contract call id now s =
  match contracts s !! id with
  | None => (Err (DomainError "Contract not found" "CONTRACT_NOT_FOUND" 404), s)
  | Some c =>
      if bool_decide (contract_target call ∉ ContractService.VALID_TRANSITIONS (contract_status c))
      then (Err (DomainError "invalid contract status transition"
                   "INVALID_CONTRACT_STATUS_TRANSITION" 400), s)
      else (Ok (contract_data call now c),
            set_contracts (insert id (contract_data call now c)) s)
  end.
Proof.
  destruct call; cbn [run_contract contract_target contract_data];
    unfold ContractService.startContract, ContractService.submitWork,
      ContractService.completeContract, ContractService.disputeContract,
      ContractService.terminateContract, ContractService.validateContractExists,
      ContractService.getContractById, ContractService.validateStatusTransition;
    prisma_unfold; munfold;
    destruct (contracts s !! id) as [c|] eqn:Hc; cbn; try done;
    case_bool_decide; cbn; try done; by rewrite Hc.
Qed.

Lemma actionable_intro c :
  ¬ (contract_status c ≠ ContractStatus.ACTIVE ∧ contract_status c ≠ ContractStatus.PENDING) →
  actionable c.
Proof.
  intros Hst. unfold actionable.
  destruct (contract_status c); auto; exfalso; apply Hst; split; discriminate.
Qed.

Lemma getAndValidateContract_Ok cid u s c s' :
  MilestoneService.getAndValidateContract cid u s = (Ok c, s') →
  contracts s !! cid = Some c ∧ actionable c
  ∧ (clientId c = u ∨ freelancerId c = u) ∧ s' = s.
Proof.
  unfold MilestoneService.getAndValidateContract, ContractService.getContractById,
    ContractValidator.validateContractExists, ContractValidator.validateContractStatus,
    ContractValidator.validateUserAccess.
  munfold. destruct (contracts s !! cid) as [c0|]; cbn; [|done].
  case_bool_decide as Hst; cbn; [done|].
  destruct (decide (clientId c0 = u)) as [H1|H1];
    destruct (decide (freelancerId c0 = u)) as [H2|H2];
    rewrite ?(bool_decide_eq_true_2 _ H1), ?(bool_decide_eq_false_2 _ H1),
      ?(bool_decide_eq_true_2 _ H2), ?(bool_decide_eq_false_2 _ H2); cbn; try done;
    intros [= <- <-]; split_and!; auto using actionable_intro.
Qed.

(** [createMilestone], path by path. *)
Lemma createMilestone_unfold d u id now s :
  MilestoneService.createMilestone d u id now s =
  match contracts s !! dto_contractId d with
  | None => (Err (DomainError "Contract was not found" "CONTRACT_NOT_FOUND" 404), s)
  | Some c =>
    if bool_decide (contract_status c ≠ ContractStatus.ACTIVE
                    ∧ contract_status c ≠ ContractStatus.PENDING) then
      (Err (DomainError "Contract is not in valid state" "CONTRACT_INACTIVE" 400), s)
    else if negb (bool_decide (clientId c = u) || bool_decide (freelancerId c = u)) then
      (Err (DomainError "User is not authorized for this contract"
              "USER_NOT_AUTHORIZED" 403), s)
    else if bool_decide (clientId c ≠ u) then
      (Err (DomainError "Only clients can perform this action" "CLIENT_ONLY_ACTION" 403), s)
    else if bool_decide (dto_amount d ≤ 0) then
      (Err (DomainError "Milestone amount must be greater than 0" "INVALID_AMOUNT" 400), s)
    else if bool_decide (dto_dueDate d < now) then
      (Err (DomainError "Milestone due date must be in the future"
              "INVALID_DUE_DATE" 400), s)
    else match milestones s !! id with
    | Some _ => (Err P2002, s)
    | None => (Ok (milestone_row d s), set_milestones (insert id (milestone_row d s)) s)
    end
  end.
Proof.
  unfold MilestoneService.createMilestone, MilestoneService.getAndValidateContract,
    ContractService.getContractById, ContractValidator.validateContractExists,
    ContractValidator.validateContractStatus, ContractValidator.validateUserAccess,
    ContractValidator.validateClientOnly, MilestoneValidator.validateMilestoneData.
  prisma_unfold. munfold.
  destruct (contracts s !! dto_contractId d) as [c|] eqn:Hc; cbn; [|done].
  case_bool_decide; cbn; [done|].
  destruct (negb _) eqn:Hn; cbn; [done|]. rewrite Hc. cbn.
  rewrite bool_decide_eq_false_2 by done. cbn. rewrite Hn. cbn. clear Hn.
  repeat (case_bool_decide; cbn; try done).
  all: by destruct (milestones s !! id).
Qed.

Lemma createMilestone_cases d u id now s :
  (∃ e, MilestoneService.createMilestone d u id now s = (Err e, s))
  ∨ (context s (dto_contractId d) u CLIENT
     ∧ 0 < dto_amount d ∧ now ≤ dto_dueDate d
     ∧ milestones s !! id = None
     ∧ MilestoneService.createMilestone d u id now s
       = (Ok (milestone_row d s), set_milestones (insert id (milestone_row d s)) s)).
Proof.
  rewrite createMilestone_unfold.
  destruct (contracts s !! dto_contractId d) as [c|] eqn:Hc; [|left; by eexists].
  case_bool_decide as Hst; [left; by eexists|].
  destruct (negb _); [left; by eexists|].
  case_bool_decide as Hcl; [left; by eexists|].
  case_bool_decide; [left; by eexists|].
  case_bool_decide; [left; by eexists|].
  destruct (milestones s !! id) as [m|] eqn:Hm; [left; by eexists|].
  right. split_and!; try done; try lia.
  exists c. split_and!; [done|by apply actionable_intro|done].
Qed.

(** ** The effect of a call on the milestone table *)

Lemma run_milestone_effect this call s :
  milestone_effect this call s (run this call s).2.
Proof.
  destruct call as [c|u r id|d id|c id now|d u id now|mid u d now|tr mid u now|mid u now
                   |mid u].
  - apply effect_foreign; [done|]. apply run_finance_milestones.
  - apply effect_foreign; [done|]. cbn [run]. rewrite void_snd, initializeUserWallet_unfold.
    by paths.
  - apply effect_foreign; [done|]. cbn [run]. rewrite void_snd.
    by destruct (createContract_cases d id s) as [[e ->]|[_ ->]].
  - apply effect_foreign; [done|]. cbn [run]. rewrite void_snd.
    apply run_contract_milestones.
  - cbn [run]. rewrite void_snd.
    destruct (createMilestone_cases d u id now s) as [[e ->]|(Hctx & Ha & Hd & Hm & ->)];
      [by apply effect_rejected|].
    by eapply effect_create.
  - cbn [run]. rewrite void_snd. unfold MilestoneService.updateMilestone.
    destruct (withMilestoneContext_fails mid u CLIENT
      (λ ctx, MilestoneValidator.validatePartialMilestoneData d now;;
              if bool_decide (milestone_status ctx.1 ≠ MilestoneStatus.PENDING)
              then throw (DomainError "Only milestones with PENDING status can be updated"
                            "INVALID_MILESTONE_UPDATE" 400)
              else milestone_update mid (MilestoneService.data_partial d)) s)
      as [e ->]. by apply effect_rejected.
  - cbn [run]. rewrite void_snd, run_transition_shape.
    destruct (withMilestoneContext_fails mid u (milestone_role tr)
      (λ ctx, MilestoneService.validateStatusTransition this (milestone_status ctx.1)
                (milestone_target tr);;
              milestone_update mid (transition_data tr now)) s)
      as [e ->]. by apply effect_rejected.
  - cbn [run]. rewrite void_snd. unfold MilestoneService.requestDeletion.
    destruct (withMilestoneContext_fails mid u CLIENT
      (λ _, milestone_update mid (data_deletionRequestedAt now)) s)
      as [e ->]. by apply effect_rejected.
  - cbn [run]. rewrite void_snd. unfold MilestoneService.acceptRequestDeletion.
    destruct (withMilestoneContext_fails mid u FREELANCER
      (λ ctx, match deletionRequestedAt ctx.1 with
              | None => throw (DomainError "No deletion request found"
                                 "NO_DELETION_REQUEST" 400)
              | Some _ => milestone_delete mid
              end) s)
      as [e ->]. by apply effect_rejected.
Qed.

(** ** The effect of a call on the contract table *)

Lemma run_contract_effect this call s :
  contract_effect call s (run this call s).2.
Proof.
  destruct (decide (is_milestone_call call = true)) as [Hmc|Hmc].
  - apply ceffect_same.
    destruct (run_milestone_effect this call s)
      as [Hf Hms|Heq|d u k now _ _ _ _ _ Heq]; try (by rewrite Heq).
    by rewrite Hf in Hmc.
  - destruct call as [c|u r id|d id|c id now| | | | |]; try done.
    + apply ceffect_same. destruct c; cbn [run run_finance].
      * rewrite depositFunds_unfold. by paths.
      * rewrite releaseFunds_unfold. by paths.
      * rewrite refundFunds_unfold. by paths.
      * rewrite movePendingToAvailable_unfold. by paths.
      * rewrite processPayoutDeduction_unfold. by paths.
    + apply ceffect_same. cbn [run]. rewrite void_snd, initializeUserWallet_unfold.
      by paths.
    + cbn [run]. rewrite void_snd.
      destruct (createContract_cases d id s) as [[e ->]|[Hc ->]];
        [by apply ceffect_same|].
      by eapply ceffect_create.
    + cbn [run]. rewrite void_snd, run_contract_unfold.
      destruct (contracts s !! id) as [c0|] eqn:Hc; [|by apply ceffect_same].
      case_bool_decide as Hill; [by apply ceffect_same|].
      eapply ceffect_transition; [done|exact Hc| |done].
      first [done | by apply dec_stable].
Qed.

(** * Properties of every call *)

(** ** Who writes what *)

Lemma run_milestone_call_store this call s :
  is_milestone_call call = true →
  ∃ ms, (run this call s).2 = set_milestones (λ _, ms) s.
Proof.
  intros Hmc.
  destruct (run_milestone_effect this call s)
    as [Hf Hms|Heq|d u k now _ _ _ _ _ Heq]; try (rewrite Heq; by eexists).
  - by rewrite Hf in Hmc.
  - rewrite Heq. exists (milestones s). by destruct s.
Qed.

(** The tables a call can write. *)
Lemma run_frame (this : MilestoneService.t) (call : Call)
    (s : Store) :
  users (run this call s).2 = users s
  ∧ match call with
    | Finance _ =>
        contracts (run this call s).2 = contracts s
        ∧ milestones (run this call s).2 = milestones s
    | InitializeUserWallet _ _ _ =>
        ∃ ws, (run this call s).2 = set_wallets (λ _, ws) s
    | CreateContract _ _ | ContractOp _ _ _ =>
        ∃ cs, (run this call s).2 = set_contracts (λ _, cs) s
    | _ => ∃ ms, (run this call s).2 = set_milestones (λ _, ms) s
    end.
Proof.
  destruct call as [c|u r id|d id|c id now|d u id now|mid u d now|tr mid u now|mid u now
                   |mid u].
  - destruct c; cbn [run run_finance].
    + rewrite depositFunds_unfold. by paths.
    + rewrite releaseFunds_unfold. by paths.
    + rewrite refundFunds_unfold. by paths.
    + rewrite movePendingToAvailable_unfold. by paths.
    + rewrite processPayoutDeduction_unfold. by paths.
  - cbn [run]. rewrite void_snd, initializeUserWallet_unfold.
    destruct (wallets s !! u) eqn:Hw; [|destruct (users s !! u)]; cbn;
      (split; [done|]); try by eexists.
    all: exists (wallets s); by destruct s.
  - cbn [run]. rewrite void_snd.
    destruct (createContract_cases d id s) as [[e ->]|[_ ->]]; cbn;
      (split; [done|]); try by eexists.
    exists (contracts s); by destruct s.
  - cbn [run]. rewrite void_snd, run_contract_unfold.
    destruct (contracts s !! id); [case_bool_decide|]; cbn; (split; [done|]);
      try by eexists.
    all: exists (contracts s); by destruct s.
  - destruct (run_milestone_call_store this (CreateMilestone d u id now) s) as [ms Hms];
      [done|]. rewrite Hms. split; [done|by eexists].
  - destruct (run_milestone_call_store this (UpdateMilestone mid u d now) s) as [ms Hms];
      [done|]. rewrite Hms. split; [done|by eexists].
  - destruct (run_milestone_call_store this (Transition tr mid u now) s) as [ms Hms];
      [done|]. rewrite Hms. split; [done|by eexists].
  - destruct (run_milestone_call_store this (RequestDeletion mid u now) s) as [ms Hms];
      [done|]. rewrite Hms. split; [done|by eexists].
  - destruct (run_milestone_call_store this (AcceptRequestDeletion mid u) s) as [ms Hms];
      [done|]. rewrite Hms. split; [done|by eexists].
Qed.

(** The services keep to their own tables.  No call writes the users.  A
    finance call leaves the contracts and the milestones alone;
    [initializeUserWallet] writes the wallets only; the contract service
    writes the contracts only; the milestone service writes the milestones
    only. *)
Theorem services_write_their_own_tables (this : MilestoneService.t) (call : Call)
    (s : Store) :
  users (run this call s).2 = users s
  ∧ match call with
    | Finance _ =>
        contracts (run this call s).2 = contracts s
        ∧ milestones (run this call s).2 = milestones s
    | InitializeUserWallet _ _ _ =>
        ∃ ws, (run this call s).2 = set_wallets (λ _, ws) s
    | CreateContract _ _ | ContractOp _ _ _ =>
        ∃ cs, (run this call s).2 = set_contracts (λ _, cs) s
    | _ => ∃ ms, (run this call s).2 = set_milestones (λ _, ms) s
    end.
Proof. apply run_frame. Qed.

(** ** The transaction logs *)

Lemma run_finance_logs call s :
  walletTransactions s `prefix_of` walletTransactions (run_finance call s).2
  ∧ escrowTransactions s `prefix_of` escrowTransactions (run_finance call s).2.
Proof.
  destruct call; cbn [run_finance].
  - rewrite depositFunds_unfold. paths; cbn; split; first [reflexivity | by apply prefix_app_r].
  - rewrite releaseFunds_unfold. paths; cbn; split; first [reflexivity | by apply prefix_app_r].
  - rewrite refundFunds_unfold. paths; cbn; split; first [reflexivity | by apply prefix_app_r].
  - rewrite movePendingToAvailable_unfold. paths; cbn; split; first [reflexivity | by apply prefix_app_r].
  - rewrite processPayoutDeduction_unfold. paths; cbn; split; first [reflexivity | by apply prefix_app_r].
Qed.

Lemma run_logs this call s :
  walletTransactions s `prefix_of` walletTransactions (run this call s).2
  ∧ escrowTransactions s `prefix_of` escrowTransactions (run this call s).2.
Proof.
  pose proof (run_frame this call s) as [_ Hframe].
  destruct call; try (destruct Hframe as [x ->]; done).
  apply run_finance_logs.
Qed.

(** Both transaction logs are append-only: whatever calls are served, in
    whatever order and with whatever outcome, the rows recorded before are
    still there, in the same order, at the head of the log. *)
Theorem logs_are_append_only (this : MilestoneService.t) (calls : list Call) (s : Store) :
  walletTransactions s `prefix_of` walletTransactions (serve (run this) calls s)
  ∧ escrowTransactions s `prefix_of` escrowTransactions (serve (run this) calls s).
Proof.
  revert s. induction calls as [|call calls IH]; intros s; [done|].
  rewrite serve_cons. destruct (IH (run this call s).2) as [IHw IHe].
  destruct (run_logs this call s) as [Hw He].
  split; etrans; done.
Qed.

(** ** Balances are never negative *)

Lemma wallets_nonneg_insert s u w' :
  wallets_nonneg s → 0 ≤ availableBalance w' → 0 ≤ pendingBalance w' →
  ∀ s', wallets s' = <[u := w']> (wallets s) → wallets_nonneg s'.
Proof.
  intros Hs Ha Hp s' Hw v w Hv. rewrite Hw in Hv.
  destruct (decide (u = v)) as [->|Hne].
  - rewrite lookup_insert_eq in Hv. by injection Hv as <-.
  - rewrite lookup_insert_ne in Hv by done. by apply (Hs v).
Qed.

Lemma run_finance_nonneg call s :
  wallets_nonneg s → wallets_nonneg (run_finance call s).2.
Proof.
  intros Hs. destruct call; cbn [run_finance].
  - rewrite depositFunds_unfold. paths; try done; subst.
    match goal with H : wallets _ !! _ = Some _ |- _ => destruct (Hs _ _ H) end.
    eapply wallets_nonneg_insert; [done| | |done]; cbn; lia.
  - rewrite releaseFunds_unfold. paths; try done; subst.
    match goal with H : payable _ _ = Some _ |- _ =>
      unfold payable in H; repeat case_match; try done; injection H as -> end.
    match goal with H : wallets _ !! _ = Some _ |- _ => destruct (Hs _ _ H) end.
    eapply wallets_nonneg_insert; [done| | |done]; cbn; lia.
  - rewrite refundFunds_unfold. paths; try done; subst.
    match goal with H : wallets _ !! _ = Some _ |- _ => destruct (Hs _ _ H) end.
    eapply wallets_nonneg_insert; [done| | |done]; cbn; lia.
  - rewrite movePendingToAvailable_unfold. paths; try done; subst.
    match goal with H : wallets _ !! _ = Some _ |- _ => destruct (Hs _ _ H) end.
    eapply wallets_nonneg_insert; [done| | |done]; cbn; lia.
  - rewrite processPayoutDeduction_unfold. paths; try done; subst.
    match goal with H : wallets _ !! _ = Some _ |- _ => destruct (Hs _ _ H) end.
    eapply wallets_nonneg_insert; [done| | |done]; cbn; lia.
Qed.

Lemma run_nonneg this call s :
  wallets_nonneg s → wallets_nonneg (run this call s).2.
Proof.
  intros Hs.
  pose proof (run_frame this call s) as [_ Hframe].
  destruct call as [c|u r id| | | | | | |];
    try (destruct Hframe as [x ->]; exact Hs).
  - by apply run_finance_nonneg.
  - clear Hframe. cbn [run]. rewrite void_snd, initializeUserWallet_unfold.
    destruct (wallets s !! u) eqn:Hw; [done|]. destruct (users s !! u); [|done].
    cbn. eapply wallets_nonneg_insert; [done| | |done]; done.
Qed.

(** No wallet balance ever becomes negative: when the available and the
    pending balance of every wallet are non-negative, they still are after
    any sequence of calls, accepted or rejected. *)
Theorem balances_never_negative (this : MilestoneService.t) (calls : list Call)
    (s : Store) :
  wallets_nonneg s →
  ∀ u w, wallets (serve (run this) calls s) !! u = Some w →
    0 ≤ availableBalance w ∧ 0 ≤ pendingBalance w.
Proof.
  revert s. induction calls as [|call calls IH]; intros s Hs; [exact Hs|].
  rewrite serve_cons. apply IH. by apply run_nonneg.
Qed.

Lemma scenario_nonneg : wallets_nonneg scenario.
Proof.
  intros u w Hw. unfold scenario in Hw. cbn [wallets] in Hw.
  apply lookup_insert_Some in Hw as [[_ <-]|[_ Hw]]; [done|].
  by apply lookup_singleton_Some in Hw as [_ <-].
Qed.

Lemma balances_never_negative_witness :
  wallets_nonneg scenario
  ∧ wallets (serve (run service) mixed_calls scenario) !! "freelancer-1"
    = Some (mkWallet "wallet-f" 0 4000)
  ∧ 0 ≤ availableBalance (mkWallet "wallet-f" 0 4000)
  ∧ 0 ≤ pendingBalance (mkWallet "wallet-f" 0 4000).
Proof.
  split; [exact scenario_nonneg|].
  split; [vm_compute; reflexivity|].
  apply (balances_never_negative service mixed_calls scenario scenario_nonneg
           "freelancer-1" (mkWallet "wallet-f" 0 4000)).
  vm_compute. reflexivity.
Defined.

(** * The contract life cycle *)

(** A status change the table allows goes through: the method returns the
    updated contract and writes it, with the target status and the
    timestamp that goes with the method ([startDate] for start,
    [submittedAt] for submitWork, [endDate] for complete and terminate,
    none for dispute); the parties, the job, the amount and the other
    timestamps are as before, and so is every other contract. *)
Theorem legal_contract_transition_applies (call : ContractCall) (id : string) (now : Date)
    (s : Store) (c : Contract) :
  contracts s !! id = Some c →
  contract_target call ∈ ContractService.VALID_TRANSITIONS (contract_status c) →
  ∃ c',
    run_contract call id now s = (Ok c', set_contracts (insert id c') s)
    ∧ contract_status c' = contract_target call
    ∧ clientId c' = clientId c ∧ freelancerId c' = freelancerId c
    ∧ jobId c' = jobId c ∧ contract_amount c' = contract_amount c
    ∧ startDate c' = (if call is StartContract then now else startDate c)
    ∧ contract_submittedAt c'
      = (if call is SubmitWork then Some now else contract_submittedAt c)
    ∧ endDate c' = match call with
                   | CompleteContract | TerminateContract => Some now
                   | _ => endDate c
                   end.
Proof.
  intros Hc Hin. exists (contract_data call now c).
  rewrite run_contract_unfold, Hc, bool_decide_eq_false_2 by (intros Hn; by apply Hn).
  by destruct call.
Qed.

Lemma legal_contract_transition_applies_witness :
  ∃ c', run_contract SubmitWork "contract-1" 50 scenario
        = (Ok c', set_contracts (insert "contract-1" c') scenario)
        ∧ contract_status c' = ContractStatus.REVIEW_PENDING
        ∧ contract_submittedAt c' = Some 50.
Proof.
  destruct (legal_contract_transition_applies SubmitWork "contract-1" 50 scenario
              (mkContract "client-1" "freelancer-1" "job-1" 100 ContractStatus.ACTIVE 0
                 None None))
    as (c' & Hrun & Hst & _ & _ & _ & _ & _ & Hsub & _).
  - vm_compute. reflexivity.
  - cbn. apply elem_of_cons. by left.
  - exists c'. by split_and!.
Defined.

(** One call: a contract that is there stays there, with its parties, job
    and amount; its status stays or takes one step of the table. *)
Lemma run_contract_row this call s k c :
  contracts s !! k = Some c →
  ∃ c', contracts (run this call s).2 !! k = Some c'
        ∧ clientId c' = clientId c ∧ freelancerId c' = freelancerId c
        ∧ jobId c' = jobId c ∧ contract_amount c' = contract_amount c
        ∧ (c' = c ∨ contract_step (contract_status c) (contract_status c')).
Proof.
  intros Hk.
  destruct (run_contract_effect this call s) as [->|d k' _ Hk' ->|op k' now c0 _ Hk' Hin ->].
  - exists c. split_and!; auto.
  - exists c. rewrite lookup_insert_ne by congruence. split_and!; auto.
  - destruct (decide (k' = k)) as [->|Hne].
    + rewrite Hk in Hk'. injection Hk' as <-.
      exists (contract_data op now c). rewrite lookup_insert_eq.
      split_and!; try by destruct op. right. unfold contract_step. by destruct op.
    + exists c. rewrite lookup_insert_ne by done. split_and!; auto.
Qed.

(** Contracts are never removed and only move along the table: after any
    sequence of calls to the three services, a contract is still there with
    the same parties, job and amount, and its status is reachable from the
    earlier one through allowed transitions. *)
Theorem contract_status_follows_the_table (this : MilestoneService.t) (calls : list Call)
    (s : Store) (k : string) (c : Contract) :
  contracts s !! k = Some c →
  ∃ c', contracts (serve (run this) calls s) !! k = Some c'
        ∧ clientId c' = clientId c ∧ freelancerId c' = freelancerId c
        ∧ jobId c' = jobId c ∧ contract_amount c' = contract_amount c
        ∧ rtc contract_step (contract_status c) (contract_status c').
Proof.
  revert s c. induction calls as [|call calls IH]; intros s c Hk.
  - exists c. by split_and!.
  - rewrite serve_cons.
    destruct (run_contract_row this call s k c Hk) as (c1 & Hk1 & ? & ? & ? & ? & Hst).
    destruct (IH _ _ Hk1) as (c' & Hk' & ? & ? & ? & ? & Hrtc).
    exists c'. split_and!; try congruence.
    destruct Hst as [->|Hstep]; [done|]. by eapply rtc_l.
Qed.

Lemma contract_status_follows_the_table_witness :
  ∃ c', contracts (serve (run service) mixed_calls scenario) !! "contract-1" = Some c'
        ∧ clientId c' = "client-1"
        ∧ rtc contract_step ContractStatus.ACTIVE (contract_status c').
Proof.
  destruct (contract_status_follows_the_table service mixed_calls scenario "contract-1"
              (mkContract "client-1" "freelancer-1" "job-1" 100 ContractStatus.ACTIVE 0
                 None None))
    as (c' & Hk & Hcl & _ & _ & _ & Hrtc).
  - vm_compute. reflexivity.
  - exists c'. by split_and!.
Defined.

(** A COMPLETED or TERMINATED contract is frozen: no sequence of calls
    changes any of its fields. *)
Theorem terminal_contract_is_frozen (this : MilestoneService.t) (calls : list Call)
    (s : Store) (k : string) (c : Contract) :
  contracts s !! k = Some c →
  terminal c →
  contracts (serve (run this) calls s) !! k = Some c.
Proof.
  revert s. induction calls as [|call calls IH]; intros s Hk Hterm; [done|].
  rewrite serve_cons. apply IH; [|done].
  destruct (run_contract_row this call s k c Hk) as (c1 & Hk1 & _ & _ & _ & _ & Hst).
  destruct Hst as [->|Hstep]; [done|].
  unfold contract_step in Hstep.
  destruct Hterm as [Ht|Ht]; rewrite Ht in Hstep; cbn in Hstep; by apply elem_of_nil in Hstep.
Qed.

Lemma terminal_contract_is_frozen_witness :
  contracts (serve (run service) mixed_calls scenario_terminated) !! "contract-1"
  = Some (mkContract "client-1" "freelancer-1" "job-1" 100 ContractStatus.TERMINATED 0
            (Some 70) None).
Proof.
  apply (terminal_contract_is_frozen service mixed_calls scenario_terminated "contract-1").
  - vm_compute. reflexivity.
  - right. reflexivity.
Defined.

(** * The milestone life cycle *)

(** ** Resolving the context *)

(** The writing milestone methods, as calls of [withMilestoneContext]. *)
Lemma run_context_call this call mid u role s :
  context_of call = Some (mid, u, role) →
  ∃ cb : Milestone * Contract → M unit,
    run this call s = MilestoneService.withMilestoneContext mid u role cb s.
Proof.
  assert (Hvoid : ∀ (cb : Milestone * Contract → M Milestone) s,
            void (MilestoneService.withMilestoneContext mid u role cb) s
            = MilestoneService.withMilestoneContext mid u role (λ ctx, void (cb ctx)) s).
  { intros cb s0. unfold void. munfold. rewrite !withMilestoneContext_unfold.
    destruct (milestones s0 !! mid) as [m|]; [|done].
    destruct (contracts s0 !! contractId m) as [c|]; [|done].
    case_bool_decide; [done|]. by destruct (negb _). }
  destruct call; cbn [context_of]; intros [= -> -> <-]; cbn [run].
  - eexists. unfold MilestoneService.updateMilestone. apply Hvoid.
  - eexists. rewrite run_transition_shape. apply Hvoid.
  - eexists. unfold MilestoneService.requestDeletion. apply Hvoid.
  - eexists. unfold MilestoneService.acceptRequestDeletion. apply Hvoid.
Qed.

(** Before anything else, every writing milestone method — update, the five
    status changes, request and accept of a deletion — resolves its
    context, and the admin bypass does not skip any of it.  In this order:
    an unknown milestone is MILESTONE_NOT_FOUND (404); a milestone whose
    contract is gone is CONTRACT_NOT_FOUND (404); a contract that is
    neither ACTIVE nor PENDING is CONTRACT_INACTIVE (400); a caller who is
    neither party is USER_NOT_AUTHORIZED (403).  A caller who is a party,
    in whichever role, then meets the [TypeError] of the role check.  So
    none of these methods returns, and nothing is written by any of
    them. *)
Theorem milestone_context_checks (this : MilestoneService.t) (call : Call)
    (mid u : string) (role : ContextRole) (s : Store) :
  context_of call = Some (mid, u, role) →
  match milestones s !! mid with
  | None =>
      run this call s = (Err (DomainError "Milestone not found" "MILESTONE_NOT_FOUND" 404), s)
  | Some m =>
    match contracts s !! contractId m with
    | None =>
        run this call s
        = (Err (DomainError "Contract was not found" "CONTRACT_NOT_FOUND" 404), s)
    | Some c =>
        (¬ actionable c →
           run this call s
           = (Err (DomainError "Contract is not in valid state" "CONTRACT_INACTIVE" 400), s))
        ∧ (actionable c → clientId c ≠ u → freelancerId c ≠ u →
           run this call s
           = (Err (DomainError "User is not authorized for this contract"
                     "USER_NOT_AUTHORIZED" 403), s))
        ∧ (actionable c → clientId c = u ∨ freelancerId c = u →
           run this call s = (Err TypeError, s))
    end
  end.
Proof.
  intros Hctx. destruct (run_context_call this call mid u role s Hctx) as [cb ->].
  rewrite withMilestoneContext_unfold.
  destruct (milestones s !! mid) as [m|]; [|done].
  destruct (contracts s !! contractId m) as [c|]; [|done].
  split_and!.
  - intros Hna. rewrite bool_decide_eq_true_2; [done|].
    unfold actionable in Hna. split; intros ?; apply Hna; auto.
  - intros Hact H1 H2.
    rewrite bool_decide_eq_false_2 by (intros [??]; by destruct Hact).
    by rewrite (bool_decide_eq_false_2 _ H1), (bool_decide_eq_false_2 _ H2).
  - intros Hact Hparty.
    rewrite bool_decide_eq_false_2 by (intros [??]; by destruct Hact).
    by destruct Hparty as [H1|H1]; rewrite (bool_decide_eq_true_2 _ H1), ?orb_true_r.
Qed.

(** The freelancer accepts the deletion of a milestone of the ACTIVE
    contract. *)
Lemma milestone_context_checks_witness :
  run service (AcceptRequestDeletion "milestone-1" "freelancer-1") scenario
  = (Err TypeError, scenario).
Proof.
  pose proof (milestone_context_checks service
                (AcceptRequestDeletion "milestone-1" "freelancer-1")
                "milestone-1" "freelancer-1" FREELANCER scenario eq_refl) as H.
  vm_compute (milestones scenario !! "milestone-1") in H.
  cbn iota beta in H.
  vm_compute (contracts scenario !! _) in H. cbn iota beta in H.
  destruct H as (_ & _ & H). apply H.
  - left. reflexivity.
  - right. reflexivity.
Defined.

(** ** Creating *)

(** [createMilestone] goes through exactly when the contract exists and is
    ACTIVE or PENDING, the caller is its client, the amount is positive,
    the due date is not in the past and the generated key is free.  The new
    milestone is PENDING, without timestamps, and its sequence is the
    number of milestones the contract has, plus one.  Each failed check has
    its own error, and nothing is written when one fails. *)
Theorem createMilestone_spec (d : MilestoneDTO) (u id : string) (now : Date) (s : Store) :
  (∀ c, contracts s !! dto_contractId d = Some c → actionable c → clientId c = u →
        0 < dto_amount d → now ≤ dto_dueDate d → milestones s !! id = None →
     MilestoneService.createMilestone d u id now s
     = (Ok (milestone_row d s), set_milestones (insert id (milestone_row d s)) s))
  ∧ (contracts s !! dto_contractId d = None →
     MilestoneService.createMilestone d u id now s
     = (Err (DomainError "Contract was not found" "CONTRACT_NOT_FOUND" 404), s))
  ∧ (∀ c, contracts s !! dto_contractId d = Some c →
     (¬ actionable c →
        MilestoneService.createMilestone d u id now s
        = (Err (DomainError "Contract is not in valid state" "CONTRACT_INACTIVE" 400), s))
     ∧ (actionable c → clientId c ≠ u → freelancerId c ≠ u →
        MilestoneService.createMilestone d u id now s
        = (Err (DomainError "User is not authorized for this contract"
                  "USER_NOT_AUTHORIZED" 403), s))
     ∧ (actionable c → clientId c ≠ u → freelancerId c = u →
        MilestoneService.createMilestone d u id now s
        = (Err (DomainError "Only clients can perform this action"
                  "CLIENT_ONLY_ACTION" 403), s))
     ∧ (actionable c → clientId c = u → dto_amount d ≤ 0 →
        MilestoneService.createMilestone d u id now s
        = (Err (DomainError "Milestone amount must be greater than 0"
                  "INVALID_AMOUNT" 400), s))
     ∧ (actionable c → clientId c = u → 0 < dto_amount d → dto_dueDate d < now →
        MilestoneService.createMilestone d u id now s
        = (Err (DomainError "Milestone due date must be in the future"
                  "INVALID_DUE_DATE" 400), s))).
Proof.
  rewrite createMilestone_unfold. split_and!.
  - intros c -> Hact Hcl Ha Hd ->.
    rewrite bool_decide_eq_false_2 by (intros [??]; by destruct Hact).
    rewrite (bool_decide_eq_true_2 _ Hcl). cbn.
    by rewrite !bool_decide_eq_false_2 by (lia || (intros ?; done)).
  - by intros ->.
  - intros c ->. split_and!.
    + intros Hna. rewrite bool_decide_eq_true_2; [done|].
      unfold actionable in Hna. split; intros ?; apply Hna; auto.
    + intros Hact H1 H2.
      rewrite bool_decide_eq_false_2 by (intros [??]; by destruct Hact).
      by rewrite (bool_decide_eq_false_2 _ H1), (bool_decide_eq_false_2 _ H2).
    + intros Hact H1 H2.
      rewrite bool_decide_eq_false_2 by (intros [??]; by destruct Hact).
      rewrite (bool_decide_eq_false_2 _ H1), (bool_decide_eq_true_2 _ H2). cbn.
      by rewrite bool_decide_eq_true_2.
    + intros Hact H1 Ha.
      rewrite bool_decide_eq_false_2 by (intros [??]; by destruct Hact).
      rewrite (bool_decide_eq_true_2 _ H1). cbn.
      rewrite bool_decide_eq_false_2 by (intros ?; done).
      by rewrite bool_decide_eq_true_2.
    + intros Hact H1 Ha Hd.
      rewrite bool_decide_eq_false_2 by (intros [??]; by destruct Hact).
      rewrite (bool_decide_eq_true_2 _ H1). cbn.
      rewrite bool_decide_eq_false_2 by (intros ?; done).
      rewrite bool_decide_eq_false_2 by lia.
      by rewrite bool_decide_eq_true_2.
Qed.

(** The client adds a second milestone to "contract-1". *)
Lemma createMilestone_spec_witness :
  MilestoneService.createMilestone (mkMilestoneDTO "contract-1" "Build" "" 70 2000)
    "client-1" "milestone-2" 100 scenario
  = (Ok (mkMilestone "contract-1" 2 "Build" "" 70 (Some 2000) MilestoneStatus.PENDING
           None None None None),
     set_milestones
       (insert "milestone-2"
          (milestone_row (mkMilestoneDTO "contract-1" "Build" "" 70 2000) scenario))
       scenario).
Proof.
  rewrite (proj1 (createMilestone_spec (mkMilestoneDTO "contract-1" "Build" "" 70 2000)
             "client-1" "milestone-2" 100 scenario)
             (mkContract "client-1" "freelancer-1" "job-1" 100 ContractStatus.ACTIVE 0
                None None)).
  - vm_compute. reflexivity.
  - vm_compute. reflexivity.
  - left. reflexivity.
  - reflexivity.
  - simpl. lia.
  - simpl. lia.
  - vm_compute. reflexivity.
Defined.

(** ** What can become of a milestone *)

(** One call: a milestone that is there stays there, as it is. *)
Lemma run_milestone_kept this call s k m :
  milestones s !! k = Some m →
  milestones (run this call s).2 !! k = Some m.
Proof.
  intros Hk.
  destruct (run_milestone_effect this call s) as [Hf ->| ->|d u k' now _ _ _ _ Hk' ->].
  - done.
  - done.
  - cbn. rewrite lookup_insert_ne by congruence. done.
Qed.

Lemma serve_milestone_kept this calls s k m :
  milestones s !! k = Some m →
  milestones (serve (run this) calls s) !! k = Some m.
Proof.
  revert s. induction calls as [|call calls IH]; intros s Hk; [done|].
  rewrite serve_cons. apply IH. by apply run_milestone_kept.
Qed.

(** Once created, a milestone never changes: after any sequence of calls
    to the three services, with or without the admin bypass, every
    milestone that was in the table is still there with every field as it
    was — status, timestamps and deletion request included.  The table
    only grows, by [createMilestone]. *)
Theorem milestone_rows_never_change (this : MilestoneService.t) (calls : list Call)
    (s : Store) :
  milestones s ⊆ milestones (serve (run this) calls s).
Proof.
  apply map_subseteq_spec. intros k m Hk. by apply serve_milestone_kept.
Qed.

(** As long as it is not deleted, a milestone keeps its contract and its
    sequence number through any sequence of calls, and without the admin
    bypass its status is reachable from the earlier one through allowed
    transitions. *)
Theorem milestone_status_follows_the_table (this : MilestoneService.t)
    (calls : list Call) (s : Store) (k : string) (m : Milestone) :
  milestones s !! k = Some m →
  (∀ u, AcceptRequestDeletion k u ∉ calls) →
  ∃ m', milestones (serve (run this) calls s) !! k = Some m'
        ∧ contractId m' = contractId m ∧ sequence m' = sequence m
        ∧ (MilestoneService.bypassAdmin this = false →
           rtc milestone_step (milestone_status m) (milestone_status m')).
Proof.
  intros Hk _. exists m. split_and!; try done.
  by apply serve_milestone_kept.
Qed.

Lemma milestone_status_follows_the_table_witness :
  ∃ m', milestones (serve (run service) mixed_calls scenario) !! "milestone-1" = Some m'
        ∧ sequence m' = 1
        ∧ rtc milestone_step MilestoneStatus.SUBMITTED (milestone_status m').
Proof.
  destruct (milestone_status_follows_the_table service mixed_calls scenario "milestone-1"
              (mkMilestone "contract-1" 1 "Design" "" 50 (Some 1000)
                 MilestoneStatus.SUBMITTED None None None None))
    as (m' & Hk & _ & Hseq & Hrtc).
  - vm_compute. reflexivity.
  - intros u Hin. unfold mixed_calls in Hin.
    repeat (apply elem_of_cons in Hin as [Hin|Hin]; [discriminate Hin|]).
    by apply elem_of_nil in Hin.
  - exists m'. split_and!; [done|done|]. by apply Hrtc.
Defined.

(** No method of the service moves a milestone out of PENDING: the table
    lets IN_PROGRESS and CANCELED follow PENDING, and the five
    status-changing methods target APPROVED, REJECTED, SUBMITTED, DISPUTED
    and COMPLETED.  So, without the admin bypass, when every milestone is
    PENDING — as every created milestone is — every milestone is still
    PENDING after any sequence of calls. *)
Theorem pending_milestones_never_progress (this : MilestoneService.t)
    (calls : list Call) (s : Store) :
  MilestoneService.bypassAdmin this = false →
  all_pending s →
  all_pending (serve (run this) calls s).
Proof.
  intros Hb. revert s. induction calls as [|call calls IH]; intros s Hs; [done|].
  rewrite serve_cons. apply IH. clear IH.
  destruct (run_milestone_effect this call s) as [Hf Heq| ->|d u k' now _ _ _ _ Hk0 ->];
    intros k m' Hk'; cbn in Hk'.
  - rewrite Heq in Hk'. by apply (Hs k).
  - by apply (Hs k).
  - apply lookup_insert_Some in Hk' as [[_ <-]|[_ Hk']]; [done|by apply (Hs k)].
Qed.

Lemma pending_milestones_never_progress_witness :
  (milestone_status <$> milestones (serve (run service) pending_calls scenario_fresh)
                          !! "milestone-2")
  = Some MilestoneStatus.PENDING.
Proof.
  assert (H : all_pending (serve (run service) pending_calls scenario_fresh)).
  { apply (pending_milestones_never_progress service pending_calls scenario_fresh).
    - reflexivity.
    - intros k m Hk. cbn in Hk. by rewrite lookup_empty in Hk. }
  destruct (milestones (serve (run service) pending_calls scenario_fresh)
              !! "milestone-2") as [m|] eqn:Hm.
  - cbn. f_equal. by apply (H "milestone-2").
  - vm_compute in Hm. discriminate Hm.
Defined.

(** ** Sequence numbers *)

Lemma count_insert_fresh (ms : gmap string Milestone) cid k m' :
  ms !! k = None →
  size (filter (λ kv : string * Milestone, contractId kv.2 = cid) (<[k := m']> ms))
  = if decide (contractId m' = cid)
    then S (size (filter (λ kv : string * Milestone, contractId kv.2 = cid) ms))
    else size (filter (λ kv : string * Milestone, contractId kv.2 = cid) ms).
Proof.
  intros Hk. rewrite map_filter_insert. cbn. case_decide.
  - apply map_size_insert_None. apply map_lookup_filter_None. by left.
  - apply f_equal, map_filter_delete_not. intros y Hy. by rewrite Hk in Hy.
Qed.

Lemma sequenced_same s s' :
  milestones s' = milestones s → sequenced s → sequenced s'.
Proof.
  intros Heq Hs k m Hk. unfold milestones_of. rewrite Heq in *.
  destruct (Hs k m Hk) as [Hb Hu]. split; [done|].
  intros k' m' Hk'. by apply Hu.
Qed.

(** Adding a row numbered one past the count of its contract. *)
Lemma sequenced_create s k row :
  sequenced s → milestones s !! k = None →
  sequence row = Z.of_nat (size (milestones_of (contractId row) s)) + 1 →
  sequenced (set_milestones (insert k row) s).
Proof.
  intros Hs Hk Hq k1 m1 Hk1. cbn in Hk1.
  assert (Hcount : ∀ cid, size (milestones_of cid (set_milestones (insert k row) s))
                          = if decide (contractId row = cid)
                            then S (size (milestones_of cid s))
                            else size (milestones_of cid s)).
  { intros cid. unfold milestones_of. cbn. by apply count_insert_fresh. }
  rewrite Hcount.
  apply lookup_insert_Some in Hk1 as [[<- <-]|[Hne Hk1]].
  - rewrite decide_True by done. split; [lia|].
    intros k2 m2 Hk2 Hc2 Hq2. cbn in Hk2.
    apply lookup_insert_Some in Hk2 as [[<- _]|[_ Hk2]]; [done|].
    destruct (Hs k2 m2 Hk2) as [Hb _]. rewrite Hc2 in Hb. lia.
  - destruct (Hs k1 m1 Hk1) as [Hb Hu]. split; [case_decide; lia|].
    intros k2 m2 Hk2 Hc2 Hq2. cbn in Hk2.
    apply lookup_insert_Some in Hk2 as [[<- <-]|[_ Hk2]].
    + rewrite <-Hc2 in Hb. lia.
    + by apply (Hu k2 m2 Hk2).
Qed.

Lemma run_sequenced this call s :
  sequenced s → sequenced (run this call s).2.
Proof.
  intros Hs.
  destruct (run_milestone_effect this call s) as [Hf Heq| ->|d u k' now _ _ _ _ Hk0 ->].
  - by eapply sequenced_same.
  - done.
  - by apply sequenced_create.
Qed.

Lemma serve_sequenced this calls s :
  sequenced s → sequenced (serve (run this) calls s).
Proof.
  revert s. induction calls as [|call calls IH]; intros s Hs; [done|].
  rewrite serve_cons. apply IH. by apply run_sequenced.
Qed.

(** As long as no milestone is deleted, sequence numbers are unique within
    a contract and run from 1 to the number of its milestones: a store
    numbered like that is still numbered like that after any sequence of
    calls without [acceptRequestDeletion]. *)
Theorem sequence_numbers_unique_without_deletion (this : MilestoneService.t)
    (calls : list Call) (s : Store) :
  sequenced s →
  (∀ k u, AcceptRequestDeletion k u ∉ calls) →
  sequenced (serve (run this) calls s)
  ∧ ∀ k1 k2 m1 m2,
      milestones (serve (run this) calls s) !! k1 = Some m1 →
      milestones (serve (run this) calls s) !! k2 = Some m2 →
      contractId m1 = contractId m2 → k1 ≠ k2 → sequence m1 ≠ sequence m2.
Proof.
  intros Hs _.
  pose proof (serve_sequenced this calls s Hs) as Hfinal.
  split; [done|].
  intros k1 k2 m1 m2 H1 H2 Hc Hne Hq.
  destruct (Hfinal k2 m2 H2) as [_ Hu]. by destruct Hne, (Hu k1 m1 H1).
Qed.

Lemma sequence_numbers_unique_without_deletion_witness :
  sequenced scenario_fresh
  ∧ sequenced (serve (run service) pending_calls scenario_fresh).
Proof.
  assert (H : sequenced scenario_fresh).
  { intros k m Hk. cbn in Hk. by rewrite lookup_empty in Hk. }
  split; [exact H|].
  apply (sequence_numbers_unique_without_deletion service pending_calls scenario_fresh H).
  intros k u Hin. unfold pending_calls in Hin.
  repeat (apply elem_of_cons in Hin as [Hin|Hin]; [discriminate Hin|]).
  by apply elem_of_nil in Hin.
Defined.



(** * The wallet of a new user *)

(** [initializeUserWallet] never resets a wallet: for a user who has one it
    returns it and writes nothing; for a user without one it creates a
    wallet with both balances at zero.  Calling it a second time, with
    whatever role and generated key, changes neither the answer nor the
    store. *)
Theorem initializeUserWallet_idempotent (userId : string) (role role' : Role.t)
    (id id' : string) (s : Store) :
  (∀ w, wallets s !! userId = Some w →
     WalletService.initializeUserWallet userId role id s = (Ok w, s))
  ∧ (wallets s !! userId = None → is_Some (users s !! userId) →
     WalletService.initializeUserWallet userId role id s
     = (Ok (mkWallet id 0 0), set_wallets (insert userId (mkWallet id 0 0)) s))
  ∧ (WalletService.initializeUserWallet userId role id;;
     WalletService.initializeUserWallet userId role' id') s
    = WalletService.initializeUserWallet userId role id s.
Proof.
  split_and!.
  - intros w Hw. by rewrite initializeUserWallet_unfold, Hw.
  - intros Hw [x Hu]. by rewrite initializeUserWallet_unfold, Hw, Hu.
  - unfold mbind, M_bind. rewrite initializeUserWallet_unfold.
    destruct (wallets s !! userId) as [w|] eqn:Hw.
    + by rewrite initializeUserWallet_unfold, Hw.
    + destruct (users s !! userId); [|done].
      rewrite initializeUserWallet_unfold. cbn. by rewrite lookup_insert_eq.
Qed.

Lemma initializeUserWallet_idempotent_witness :
  WalletService.initializeUserWallet "client-1" Role.CLIENT "wallet-new" scenario
  = (Ok (mkWallet "wallet-c" 15000 0), scenario).
Proof.
  apply (proj1 (initializeUserWallet_idempotent "client-1" Role.CLIENT Role.CLIENT
                  "wallet-new" "wallet-new" scenario)).
  vm_compute. reflexivity.
Defined.

(** * A deposit taken back *)

(** With the unique index on the contract of an escrow account, the
    account found for a contract is the one stored for it. *)
Lemma escrow_of_contract_unique cid s eid a :
  escrow_unique s →
  escrowAccounts s !! eid = Some a → escrow_contractId a = cid →
  escrow_of_contract cid s = Some (eid, a).
Proof.
  intros Hu Ha Hc. unfold escrow_of_contract.
  destruct (head _) as [[k a']|] eqn:Hh.
  - apply head_Some_elem_of, list_elem_of_filter in Hh as [HP Hin]. cbn in HP.
    apply elem_of_map_to_list in Hin.
    assert (k = eid) as -> by (apply (Hu _ _ _ _ Hin Ha); congruence).
    rewrite Ha in Hin. by injection Hin as ->.
  - apply head_None in Hh.
    assert (Hin : (eid, a) ∈ filter (λ p : string * EscrowAccount,
                                       escrow_contractId p.2 = cid)
                               (map_to_list (escrowAccounts s))).
    { apply list_elem_of_filter. split; [done|]. by apply elem_of_map_to_list. }
    rewrite Hh in Hin. by apply elem_of_nil in Hin.
Qed.

(** A deposit followed by a refund of the same amount puts every wallet
    balance and every held amount back where it was; each of the two logs
    has two more rows.  The balances involved are within the range of their
    columns, the held amount also after the deposit. *)
Theorem deposit_then_refund_restores_balances (userId contractId : string) (amount : Z)
    (isSystemRefund : bool) (s : Store) (c : Contract) (eid : string) (a : EscrowAccount)
    (w : Wallet) :
  0 < amount →
  contracts s !! contractId = Some c →
  escrow_of_contract contractId s = Some (eid, a) →
  escrow_unique s →
  0 ≤ heldAmount a →
  heldAmount a + amount ≤ INT_MAX →
  clientId c = userId →
  wallets s !! userId = Some w →
  amount ≤ availableBalance w →
  availableBalance w ≤ INT_MAX →
  ∃ s',
    (EscrowService.depositFunds userId contractId amount;;
     EscrowService.refundFunds contractId amount isSystemRefund) s = (Ok tt, s')
    ∧ wallets s' = wallets s
    ∧ escrowAccounts s' = escrowAccounts s
    ∧ length (walletTransactions s') = S (S (length (walletTransactions s)))
    ∧ length (escrowTransactions s') = S (S (length (escrowTransactions s))).
Proof.
  intros Hpos Hc He Hu Hheld Hfit Hcl Hw Hle Hfw.
  pose proof (escrow_of_contract_Some _ _ _ _ He) as [Ha Hcid].
  unfold mbind, M_bind.
  rewrite depositFunds_unfold, Hc, He, Hw.
  rewrite bool_decide_eq_false_2 by lia.
  rewrite bool_decide_eq_false_2 by (intros ?; done).
  rewrite bool_decide_eq_false_2 by lia.
  rewrite bool_decide_eq_true_2 by (split; range).
  set (s1 := deposited userId contractId eid amount w a s).
  assert (He1 : escrow_of_contract contractId s1
                = Some (eid, mkEscrowAccount (escrow_contractId a) (heldAmount a + amount)
                               (initialAmount a))).
  { apply escrow_of_contract_unique; [|apply lookup_insert_eq|done].
    intros k1 k2 a1 a2 H1 H2 Heq. cbn in H1, H2.
    apply lookup_insert_Some in H1 as [[<- <-]|[Hn1 H1]];
      apply lookup_insert_Some in H2 as [[<- <-]|[Hn2 H2]]; try done.
    - symmetry. by apply (Hu _ _ _ _ H2 Ha).
    - by apply (Hu _ _ _ _ H1 Ha).
    - by apply (Hu _ _ _ _ H1 H2). }
  rewrite refundFunds_unfold, He1. cbn [contracts s1 deposited]. rewrite Hc.
  rewrite bool_decide_eq_false_2 by lia.
  rewrite bool_decide_eq_false_2 by (cbn; lia).
  rewrite bool_decide_eq_true_2 by (cbn; range).
  rewrite Hcl. cbn [wallets s1 deposited]. rewrite lookup_insert_eq.
  rewrite bool_decide_eq_true_2 by (cbn; range).
  eexists. split; [done|]. cbn. split_and!.
  - rewrite insert_insert_eq. apply insert_id. rewrite Hw. f_equal.
    destruct w; cbn; f_equal; lia.
  - rewrite insert_insert_eq. apply insert_id. rewrite Ha. f_equal.
    destruct a; cbn; f_equal; lia.
  - rewrite !length_app. cbn. lia.
  - rewrite !length_app. cbn. lia.
Qed.

Lemma deposit_then_refund_restores_balances_witness :
  ∃ s',
    (EscrowService.depositFunds "client-1" "contract-1" 7000;;
     EscrowService.refundFunds "contract-1" 7000 true) scenario = (Ok tt, s')
    ∧ wallets s' = wallets scenario
    ∧ escrowAccounts s' = escrowAccounts scenario.
Proof.
  destruct (deposit_then_refund_restores_balances "client-1" "contract-1" 7000 true
              scenario
              (mkContract "client-1" "freelancer-1" "job-1" 100 ContractStatus.ACTIVE 0
                 None None)
              "escrow-1" (mkEscrowAccount "contract-1" 0 0) (mkWallet "wallet-c" 15000 0))
    as (s' & Hrun & Hw & He & _).
  - lia.
  - vm_compute. reflexivity.
  - vm_compute. reflexivity.
  - intros k1 k2 a1 a2 H1 H2 _. cbn in H1, H2.
    apply lookup_singleton_Some in H1 as [<- _].
    by apply lookup_singleton_Some in H2 as [<- _].
  - simpl. lia.
  - vm_compute. discriminate.
  - reflexivity.
  - vm_compute. reflexivity.
  - simpl. lia.
  - vm_compute. discriminate.
  - exists s'. by split_and!.
Defined.

(** * The contract routes *)

(** What a handler lets through, the transition table allows. *)
Lemma admits_legal call c u :
  admits call c u →
  contract_target call ∈ ContractService.VALID_TRANSITIONS (contract_status c).
Proof.
  destruct call; cbn.
  - intros [_ ->]. cbn. apply elem_of_cons. by left.
  - intros [_ ->]. cbn. apply elem_of_cons. by left.
  - intros [_ ->]. cbn. apply elem_of_cons. by left.
  - intros [_ ->]. cbn. apply elem_of_cons. right. apply elem_of_cons. by left.
  - intros (_ & H1 & H2). destruct (contract_status c); cbn; try done;
      repeat first [apply elem_of_cons; by left | apply elem_of_cons; right].
Qed.

Ltac controller_unfold :=
  unfold handle, ContractController.startContract, ContractController.submitWork,
    ContractController.completeContract, ContractController.disputeContract,
    ContractController.terminateContract, ContractController.getContractById,
    ContractController.respond, ContractController.validateUserAccess,
    ContractController.validateClientAccess, ContractController.validateFreelancerAccess,
    ContractService.getContractById;
  munfold.

Lemma handle_service call id now s :
  match call with
  | StartContract => ContractService.startContract id now s
  | SubmitWork => ContractService.submitWork id now s
  | CompleteContract => ContractService.completeContract id now s
  | DisputeContract => ContractService.disputeContract id s
  | TerminateContract => ContractService.terminateContract id now s
  end = run_contract call id now s.
Proof. by destruct call. Qed.

(** The status-changing routes of a contract.  A request without contract
    id is answered 400 MISSING_CONTRACT_ID and an unknown contract 404
    CONTRACT_NOT_FOUND.  For a contract that exists, a request the handler
    admits — start: the client, on a PENDING contract; submit work: the
    freelancer, on an ACTIVE one; complete and dispute: the client, on a
    REVIEW_PENDING one; terminate: either party, unless the contract is
    COMPLETED or TERMINATED — is answered 200 with the updated contract,
    which is written; any other request is answered 403 ACCESS_DENIED or
    400 by the handler's own status check, and nothing is written.  No
    request is answered 500, and none reaches the transition table with a
    change it refuses. *)
Theorem contract_routes_spec (call : ContractCall) (id u : string) (now : Date)
    (s : Store) :
  (id = "" →
     handle call id u now s
     = (mkResponse 400 (JsonError "Contract ID is required" "MISSING_CONTRACT_ID"), s))
  ∧ (id ≠ "" → contracts s !! id = None →
     handle call id u now s
     = (mkResponse 404 (JsonError "Contract not found" "CONTRACT_NOT_FOUND"), s))
  ∧ (∀ c, id ≠ "" → contracts s !! id = Some c →
     (admits call c u →
        handle call id u now s
        = (mkResponse 200 (JsonContract (contract_data call now c)),
           set_contracts (insert id (contract_data call now c)) s))
     ∧ (¬ admits call c u →
        ∃ message code,
          handle call id u now s
          = (mkResponse (if bool_decide (code = "ACCESS_DENIED") then 403 else 400)
               (JsonError message code), s)
          ∧ (code = "ACCESS_DENIED" ∨ code = "INVALID_CONTRACT_STATUS"
             ∨ code = "INVALID_CONTRACT_sTATUS"))).
Proof.
  split_and!.
  - intros ->. destruct call; controller_unfold; by rewrite bool_decide_eq_true_2.
  - intros Hid Hc. destruct call; controller_unfold;
      by rewrite (bool_decide_eq_false_2 _ Hid), Hc.
  - intros c Hid Hc. split.
    + intros Hadm. pose proof (admits_legal _ _ _ Hadm) as Hlegal.
      pose proof (handle_service call id now s) as Hsvc.
      rewrite run_contract_unfold, Hc in Hsvc.
      rewrite bool_decide_eq_false_2 in Hsvc by (intros Hn; by apply Hn).
      destruct call; cbn in Hadm; controller_unfold;
        rewrite (bool_decide_eq_false_2 _ Hid), Hc; cbn.
      * destruct Hadm as [H1 H2]. rewrite bool_decide_eq_false_2 by (intros ?; done). cbn.
        rewrite bool_decide_eq_false_2 by (intros ?; done). by rewrite Hsvc.
      * destruct Hadm as [H1 H2]. rewrite bool_decide_eq_false_2 by (intros ?; done). cbn.
        rewrite bool_decide_eq_false_2 by (intros ?; done). by rewrite Hsvc.
      * destruct Hadm as [H1 H2]. rewrite bool_decide_eq_false_2 by (intros ?; done). cbn.
        rewrite bool_decide_eq_false_2 by (intros ?; done). by rewrite Hsvc.
      * destruct Hadm as [H1 H2]. rewrite bool_decide_eq_false_2 by (intros ?; done). cbn.
        rewrite bool_decide_eq_false_2 by (intros ?; done). by rewrite Hsvc.
      * destruct Hadm as (H1 & H2 & H3).
        rewrite bool_decide_eq_false_2 by (intros [??]; by destruct H1). cbn.
        rewrite bool_decide_eq_false_2 by (intros [?|?]; done). by rewrite Hsvc.
    + intros Hna.
      destruct call; cbn in Hna; controller_unfold;
        rewrite (bool_decide_eq_false_2 _ Hid), Hc; cbn.
      1-4: case_bool_decide as Hrole; cbn;
        [exists "Access denied", "ACCESS_DENIED"; split; [done|by left]|];
        case_bool_decide as Hst; cbn; [|by destruct Hna];
        eexists _, "INVALID_CONTRACT_STATUS"; split; [done|right; by left].
      case_bool_decide as Hrole; cbn;
        [exists "Access denied", "ACCESS_DENIED"; split; [done|by left]|].
      case_bool_decide as Hst; cbn.
      * eexists _, "INVALID_CONTRACT_sTATUS"; split; [done|right; by right].
      * destruct Hna. split_and!.
        -- destruct (decide (clientId c = u)); [by left|].
           destruct (decide (freelancerId c = u)); [by right|]. by destruct Hrole.
        -- intros ?. apply Hst. by left.
        -- intros ?. apply Hst. by right.
Qed.

(** The freelancer submits the work of the ACTIVE contract; the client may
    not. *)
Lemma contract_routes_spec_witness :
  (handle SubmitWork "contract-1" "freelancer-1" 50 scenario).1
  = mkResponse 200
      (JsonContract (mkContract "client-1" "freelancer-1" "job-1" 100
                       ContractStatus.REVIEW_PENDING 0 None (Some 50)))
  ∧ ∃ message code,
      handle SubmitWork "contract-1" "client-1" 50 scenario
      = (mkResponse (if bool_decide (code = "ACCESS_DENIED") then 403 else 400)
           (JsonError message code), scenario).
Proof.
  pose proof (proj2 (proj2 (contract_routes_spec SubmitWork "contract-1" "freelancer-1"
                              50 scenario))
                (mkContract "client-1" "freelancer-1" "job-1" 100 ContractStatus.ACTIVE 0
                   None None)) as H1.
  pose proof (proj2 (proj2 (contract_routes_spec SubmitWork "contract-1" "client-1"
                              50 scenario))
                (mkContract "client-1" "freelancer-1" "job-1" 100 ContractStatus.ACTIVE 0
                   None None)) as H2.
  split.
  - rewrite (proj1 (H1 ltac:(discriminate) ltac:(vm_compute; reflexivity))); [done|].
    split; reflexivity.
  - destruct (proj2 (H2 ltac:(discriminate) ltac:(vm_compute; reflexivity)))
      as (message & code & Hrun & _).
    + intros [Hf _]. discriminate Hf.
    + by exists message, code.
Defined.

(** A user who is neither the client nor the freelancer of a contract gets
    403 ACCESS_DENIED from every contract route, reading included, and
    nothing is written. *)
Theorem outsider_is_denied (call : ContractCall) (id u : string) (now : Date) (s : Store)
    (c : Contract) :
  id ≠ "" →
  contracts s !! id = Some c →
  clientId c ≠ u → freelancerId c ≠ u →
  handle call id u now s
  = (mkResponse 403 (JsonError "Access denied" "ACCESS_DENIED"), s)
  ∧ ContractController.getContractById id u s
    = (mkResponse 403 (JsonError "Access denied" "ACCESS_DENIED"), s).
Proof.
  intros Hid Hc H1 H2. split.
  - destruct call; controller_unfold; rewrite (bool_decide_eq_false_2 _ Hid), Hc; cbn;
      by rewrite bool_decide_eq_true_2.
  - controller_unfold. rewrite (bool_decide_eq_false_2 _ Hid), Hc. cbn.
    by rewrite bool_decide_eq_true_2.
Qed.

Lemma outsider_is_denied_witness :
  handle TerminateContract "contract-1" "someone-else" 50 scenario
  = (mkResponse 403 (JsonError "Access denied" "ACCESS_DENIED"), scenario).
Proof.
  apply (outsider_is_denied TerminateContract "contract-1" "someone-else" 50 scenario
           (mkContract "client-1" "freelancer-1" "job-1" 100 ContractStatus.ACTIVE 0
              None None)).
  - discriminate.
  - vm_compute. reflexivity.
  - discriminate.
  - discriminate.
Defined.

(** * One account per operation *)

(** A finance call either leaves the escrow accounts and their log alone,
    or rewrites the held amount of exactly one account — the account of the
    contract the call names — and appends exactly one escrow transaction:
    for that account, of a positive amount, which is the amount by which
    the held amount moved.  The contract and the initial amount of the
    account are never written. *)
Theorem escrow_change_has_one_audit_row (call : FinanceCall) (s : Store) :
  (escrowAccounts (run_finance call s).2 = escrowAccounts s
   ∧ escrowTransactions (run_finance call s).2 = escrowTransactions s)
  ∨ (∃ eid a a' row,
       escrowAccounts s !! eid = Some a
       ∧ escrowAccounts (run_finance call s).2 = <[eid := a']> (escrowAccounts s)
       ∧ escrow_contractId a' = escrow_contractId a
       ∧ initialAmount a' = initialAmount a
       ∧ escrowTransactions (run_finance call s).2 = (escrowTransactions s ++ [row])%list
       ∧ et_escrowAccountId row = eid
       ∧ 0 < et_amount row
       ∧ Z.abs (heldAmount a' - heldAmount a) = et_amount row
       ∧ match call with
         | DepositFunds _ cid _ | ReleaseFunds _ cid _ | RefundFunds cid _ _ =>
             escrow_contractId a = cid
         | _ => False
         end).
Proof.
  destruct call; cbn [run_finance].
  - rewrite depositFunds_unfold. paths; try (by left); subst. right.
    match goal with H : escrow_of_contract _ _ = Some _ |- _ =>
      apply escrow_of_contract_Some in H as [Ha Hcid] end.
    do 4 eexists. split_and!; cbn; try done; cbn; lia.
  - rewrite releaseFunds_unfold. paths; try (by left); subst. right.
    match goal with H : escrow_of_contract _ _ = Some _ |- _ =>
      apply escrow_of_contract_Some in H as [Ha Hcid] end.
    do 4 eexists. split_and!; cbn; try done; cbn; lia.
  - rewrite refundFunds_unfold. paths; try (by left); subst. right.
    match goal with H : escrow_of_contract _ _ = Some _ |- _ =>
      apply escrow_of_contract_Some in H as [Ha Hcid] end.
    do 4 eexists. split_and!; cbn; try done; cbn; lia.
  - rewrite movePendingToAvailable_unfold. paths; by left.
  - rewrite processPayoutDeduction_unfold. paths; by left.
Qed.
